(** * MediQuest AI patient module: the image pipeline and its annotations

    A shallow embedding of the upload pipeline ([src/App.tsx]), the two
    Gemini stages ([src/services/geminiService.ts]), the persistence
    hand-off ([src/services/firebaseService.ts]), the overlay renderer
    ([src/components/ImageAnnotator.tsx]) and the export renderer
    ([src/components/UploadReport.tsx]).

    JavaScript strings are modelled by [string] read as code units
    U+0000..U+00FF, numbers by binary64 primitive floats, [T | undefined]
    and [T | null] by [option T], thrown exceptions by an explicit
    completion type, and [async] functions by their sequential runs (each
    [await] is a plain call whose completion comes from the environment). *)

From Stdlib Require Import Bool Arith Ascii String List NArith Lia Floats DecimalString.
Import ListNotations.

#[local] Set Warnings "-inexact-float,-register-all".
#[local] Open Scope string_scope.
#[local] Open Scope list_scope.

(** ** JavaScript values and completions *)

Module JS.

(** What a [throw] carries, as far as the pipeline can tell errors apart. *)
Inductive error : Type :=
| TypeError
| SyntaxError
| ServiceError (msg : string).

(** The completion of an expression or of an awaited promise. *)
Inductive completion (A : Type) : Type :=
| Normal (a : A)
| Throw (e : error).
Arguments Normal {A} a.
Arguments Throw {A} e.

Definition bindc {A B} (c : completion A) (k : A -> completion B) : completion B :=
  match c with
  | Normal a => k a
  | Throw e => Throw e
  end.

(** [try { body } catch (error) { handler }] *)
Definition try_catch {A} (body : completion A) (handler : error -> completion A)
  : completion A :=
  match body with
  | Normal a => Normal a
  | Throw e => handler e
  end.

(** A value as [JSON.parse] builds it.  A property that is absent reads as
    [undefined], which is [None] wherever a property is read. *)
Inductive value : Type :=
| JNull
| JBool (b : bool)
| JNum (x : float)
| JStr (s : string)
| JArr (xs : list value)
| JObj (props : list (string * value)).

(** A plain object: its own enumerable properties in insertion order. *)
Definition object : Type := list (string * value).

Fixpoint lookup (k : string) (o : object) : option value :=
  match o with
  | [] => None
  | (k', v) :: o' => if String.eqb k k' then Some v else lookup k o'
  end.

(** Writing a property keeps the position of an existing key, and appends a
    new one. *)
Fixpoint assign (k : string) (v : value) (o : object) : object :=
  match o with
  | [] => [(k, v)]
  | (k', v') :: o' =>
      if String.eqb k k' then (k, v) :: o' else (k', v') :: assign k v o'
  end.

(** [s ? ... : ...] on a [string | undefined | null]. *)
Definition truthy (s : option string) : bool :=
  match s with
  | Some s => negb (String.eqb s "")
  | None => false
  end.

(** [a || b] on strings that may be missing. *)
Definition or_else (a b : option string) : option string :=
  if truthy a then a else b.

Definition string_of_index (n : nat) : string :=
  NilEmpty.string_of_uint (Nat.to_uint n).

Fixpoint indexed {A} (i : nat) (xs : list A) : list (string * A) :=
  match xs with
  | [] => []
  | x :: xs' => (string_of_index i, x) :: indexed (S i) xs'
  end.

Definition chars (s : string) : list value :=
  map (fun c => JStr (String c EmptyString)) (list_ascii_of_string s).

(** [{ ...v }]: the own enumerable properties of [v]; [null] and the
    numbers and booleans spread to nothing, arrays and strings to their
    indices. *)
Definition spread (v : value) : object :=
  match v with
  | JObj props => props
  | JArr xs => indexed 0 xs
  | JStr s => indexed 0 (chars s)
  | JNull | JBool _ | JNum _ => []
  end.

(** [v.k]: reading a property of [null] throws; the primitives and arrays
    have no own property of the names the pipeline reads. *)
Definition get (v : value) (k : string) : completion (option value) :=
  match v with
  | JNull => Throw TypeError
  | JObj props => Normal (lookup k props)
  | JBool _ | JNum _ | JStr _ | JArr _ => Normal None
  end.

(** [Array.isArray] on a property that was read. *)
Definition isArray (v : option value) : bool :=
  match v with
  | Some (JArr _) => true
  | _ => false
  end.

(** *** String methods, on code units below 256 *)

(** [String.prototype.toLowerCase] on one code unit: A..Z and the Latin-1
    capitals U+00C0..U+00DE (U+00D7, the multiplication sign, apart) move
    up by 32. *)
Definition toLowerCase_unit (c : ascii) : ascii :=
  let n := N_of_ascii c in
  if ((65 <=? n) && (n <=? 90)
      || (192 <=? n) && (n <=? 222) && negb (n =? 215))%N
  then ascii_of_N (n + 32)
  else c.

Fixpoint toLowerCase (s : string) : string :=
  match s with
  | EmptyString => EmptyString
  | String c s' => String (toLowerCase_unit c) (toLowerCase s')
  end.

(** [s.startsWith(p)] *)
Definition startsWith (s p : string) : bool := String.prefix p s.

(** [s.includes(sub)] *)
Fixpoint includes (s sub : string) : bool :=
  String.prefix sub s
  || match s with
     | EmptyString => false
     | String _ s' => includes s' sub
     end.

(** [s.split(sep)] for a separator of one code unit. *)
Fixpoint split (sep : ascii) (s : string) : list string :=
  match s with
  | EmptyString => [EmptyString]
  | String c s' =>
      if Ascii.eqb c sep then EmptyString :: split sep s'
      else match split sep s' with
           | h :: t => String c h :: t
           | [] => [String c EmptyString]
           end
  end.

(** [xs.map((x, idx) => f x idx)], counting from [i]. *)
Fixpoint mapi_from {A B} (i : nat) (f : A -> nat -> B) (xs : list A) : list B :=
  match xs with
  | [] => []
  | x :: xs' => f x i :: mapi_from (S i) f xs'
  end.

Definition mapi {A B} (f : A -> nat -> B) (xs : list A) : list B :=
  mapi_from 0 f xs.

(** React leaves out the children that are [null]. *)
Fixpoint children {A} (xs : list (option A)) : list A :=
  match xs with
  | [] => []
  | Some x :: xs' => x :: children xs'
  | None :: xs' => children xs'
  end.

End JS.
Export JS.

(** ** src/types.ts *)

Module Types.

Record BoundingBox : Type := mkBox {
  ymin : float;
  xmin : float;
  ymax : float;
  xmax : float
}.

Record MedicalFinding : Type := mkFinding {
  label : string;
  confidence : option string;
  box_2d : option BoundingBox;
  explanation : string
}.

Record AnalysisResult : Type := mkAnalysis {
  findings : list MedicalFinding;
  summary : string;
  disclaimer : string
}.

(** [UploadedFile], over the type [R] of the report it carries: the typed
    [AnalysisResult] for the renderers, and the object that
    [analyzeMedicalDocument] really returns (its cast is unchecked) for the
    pipeline. *)
Record UploadedFile (R : Type) : Type := mkFile {
  id : string;
  name : string;
  type : string;
  date : string;
  previewUrl : option string;
  processedUrl : option string;
  analysisResult : option R
}.
Arguments mkFile {R}.
Arguments id {R}.
Arguments name {R}.
Arguments type {R}.
Arguments date {R}.
Arguments previewUrl {R}.
Arguments processedUrl {R}.
Arguments analysisResult {R}.

End Types.
Export Types.

(** ** src/services/geminiService.ts *)

Module Gemini.

Record InlineData : Type := mkInline {
  data : option string;
  mimeType : string
}.

(** A part of a response: an image when [inlineData] is present. *)
Record Part : Type := mkPart {
  inlineData : option InlineData;
  part_text : option string
}.

Record Content : Type := mkContent { parts : option (list Part) }.

Record Candidate : Type := mkCandidate { content : option Content }.

Record Response : Type := mkResponse {
  text : option string;
  candidates : option (list Candidate)
}.

(** The argument of [ai.models.generateContent]: the model, the inline
    image or document, the instruction, and the requested response type. *)
Record Request : Type := mkRequest {
  model : string;
  request_inline : InlineData;
  request_text : string;
  responseMimeType : option string
}.

Record Client : Type := GoogleGenAI { apiKey : string }.

(** What the service sees of the outside: the configured key, the hosted
    model behind [generateContent], and the platform's [JSON.parse]. *)
Record Env : Type := mkEnv {
  API_KEY : option string;
  generateContent : Client -> Request -> completion Response;
  JSON_parse : string -> completion value
}.

Definition getGenAIClient (env : Env) : option Client :=
  match API_KEY env with
  | Some k => if String.eqb k "" then None else Some (GoogleGenAI k)
  | None => None
  end.

Definition enhance_instruction : string :=
  "Enhance this medical scan: remove noise/grain, improve contrast, and crop exactly to the main anatomical region of interest (e.g., the lung, bone, or organ). Maintain medical accuracy. Do not add non-existent features.".

(** [response.candidates?.[0]?.content?.parts || []] *)
Definition response_parts (response : Response) : list Part :=
  match candidates response with
  | Some (c :: _) =>
      match content c with
      | Some ct => match parts ct with Some ps => ps | None => [] end
      | None => []
      end
  | _ => []
  end.

(** The [for ... of] loop: the data of the first part that is an image. *)
Fixpoint first_inline (ps : list Part) : option string :=
  match ps with
  | [] => None
  | p :: ps' =>
      match inlineData p with
      | Some d => data d
      | None => first_inline ps'
      end
  end.

(** The request of the enhancement stage. *)
Definition enhanceRequest (base64Data : option string) (mime : string) : Request :=
  mkRequest "gemini-2.5-flash-image" (mkInline base64Data mime)
    enhance_instruction None.

Definition processMedicalImage (env : Env) (base64Data : option string)
    (mime : string) : completion (option string) :=
  match getGenAIClient env with
  | None => Normal None
  | Some ai =>
      try_catch
        (bindc (generateContent env ai (enhanceRequest base64Data mime))
           (fun response => Normal (first_inline (response_parts response))))
        (fun _ => Normal None)
  end.

Definition q : string := String (ascii_of_nat 34) EmptyString.
Definition nl : string := String (ascii_of_nat 10) EmptyString.

Definition prompt : string :=
  String.concat nl [
    "";
    "    You are an expert medical imaging assistant. ";
    "    Analyze the provided medical image (X-ray, MRI, CT, Skin Lesion, or Document).";
    "";
    "    Tasks:";
    "    1. Identify any visually suspicious regions, anomalies, or key medical text/values.";
    "    2. If it is an image scan, estimate the bounding box coordinates for these regions.";
    "    3. Provide a brief summary of findings.";
    "";
    "    IMPORTANT: ";
    "    - Coordinates must be normalized (0.0 to 1.0) in the order [ymin, xmin, ymax, xmax].";
    "    - This is for educational/screening purposes only. Do not provide a definitive diagnosis.";
    "";
    "    Return JSON matching this schema:";
    "    {";
    String.concat q ["      "; "summary"; ": "; "string"; ","];
    String.concat q ["      "; "findings"; ": ["];
    "        {";
    String.concat q ["          "; "label"; ": ";
      "string (e.g. 'Possible Nodule', 'Fracture', 'High Glucose Value')"; ","];
    String.concat q ["          "; "confidence"; ": ";
      "string (e.g. 'High', 'Medium')"; ","];
    String.concat q ["          "; "explanation"; ": "; "string"; ","];
    String.concat q ["          "; "box_2d"; ": { "; "ymin"; ": number, ";
      "xmin"; ": number, "; "ymax"; ": number, "; "xmax";
      ": number } // Optional if not applicable"];
    "        }";
    "      ],";
    String.concat q ["      "; "disclaimer"; ": "; "string"; ""];
    "    }";
    "  "
  ].

Definition defaultError : object :=
  [ ("summary", JStr "Analysis failed.");
    ("findings", JArr []);
    ("disclaimer", JStr "System Error.") ].

(** The object the [catch] block returns. *)
Definition catchError : object :=
  [ ("summary", JStr "Could not process image.");
    ("findings", JArr []);
    ("disclaimer", JStr "Error occurred during analysis.") ].

(** [{ ...parsed, findings: Array.isArray(parsed.findings) ? parsed.findings : [] }] *)
Definition coerce (parsed : value) : completion object :=
  bindc (get parsed "findings") (fun f =>
    Normal (assign "findings"
              (match f with
               | Some (JArr xs) => JArr xs
               | _ => JArr []
               end)
              (spread parsed))).

(** The request of the analysis stage. *)
Definition analysisRequest (base64Data : option string) (mime : string) : Request :=
  mkRequest "gemini-3-flash-preview" (mkInline base64Data mime) prompt
    (Some "application/json").

Definition analyzeMedicalDocument (env : Env) (base64Data : option string)
    (mime : string) : completion object :=
  match getGenAIClient env with
  | None => Normal defaultError
  | Some ai =>
      try_catch
        (bindc (generateContent env ai (analysisRequest base64Data mime))
           (fun response =>
              match text response with
              | Some t =>
                  if String.eqb t "" then Normal defaultError
                  else bindc (JSON_parse env t) coerce
              | None => Normal defaultError
              end))
        (fun _ => Normal catchError)
  end.

End Gemini.

(** ** src/services/firebaseService.ts *)

Module Firebase.

(** [db] is the Firestore handle ([false] when the module runs offline);
    [updateDoc] is the store's answer to a write of one report under a
    patient's document. *)
Record Env (R : Type) : Type := mkEnv {
  db : bool;
  updateDoc : string -> UploadedFile R -> completion unit
}.
Arguments mkEnv {R}.
Arguments db {R}.
Arguments updateDoc {R}.

Definition isFirebaseReady {R} (env : Env R) : bool := db env.

(** [s?.length || 0] *)
Definition length_or_0 (s : option string) : N :=
  match s with
  | Some s => N.of_nat (String.length s)
  | None => 0%N
  end.

(** The copy handed to [arrayUnion]: [{ ...file }], with both image URLs
    blanked when the preview alone is longer than 800000 characters. *)
Definition safeFile {R} (file : UploadedFile R) : UploadedFile R :=
  if (800000 <? length_or_0 (previewUrl file))%N then
    mkFile (id file) (name file) (type file) (date file)
           (Some "") (Some "") (analysisResult file)
  else file.

(** The writes issued (patient, report written), and how the call ends. *)
Definition addPatientReport {R} (env : Env R) (userId : string)
    (file : UploadedFile R)
  : list (string * UploadedFile R) * completion unit :=
  if negb (db env) then ([], Normal tt)
  else ([(userId, safeFile file)], updateDoc env userId (safeFile file)).

End Firebase.

(** ** src/components/ImageAnnotator.tsx *)

Module Annotator.

Inductive ViewMode : Type := box | heatmap | combined.

Definition ViewMode_eqb (a b : ViewMode) : bool :=
  match a, b with
  | box, box | heatmap, heatmap | combined, combined => true
  | _, _ => false
  end.

(** The three gradients: high, medium, and low or unknown. *)
Definition gradient_high : string :=
  "radial-gradient(circle at center, rgba(220, 38, 38, 1) 0%, rgba(220, 38, 38, 0.6) 45%, transparent 85%)".
Definition gradient_medium : string :=
  "radial-gradient(circle at center, rgba(234, 88, 12, 0.9) 0%, rgba(234, 88, 12, 0.5) 45%, transparent 85%)".
Definition gradient_low : string :=
  "radial-gradient(circle at center, rgba(202, 138, 4, 0.8) 0%, rgba(202, 138, 4, 0.4) 45%, transparent 85%)".

Definition getHeatmapStyle (confidence : option string) : string :=
  (* confidence?.toLowerCase() || '' *)
  let c := match confidence with
           | Some s => toLowerCase s
           | None => ""
           end in
  if includes c "high" then gradient_high
  else if includes c "medium" then gradient_medium
  else gradient_low.

(** [f.box_2d] as a condition. *)
Definition has_box (f : MedicalFinding) : bool :=
  match box_2d f with
  | Some _ => true
  | None => false
  end.

(** [(findings || []).filter(f => f.box_2d)] *)
Definition visualFindings (findings : option (list MedicalFinding))
  : list MedicalFinding :=
  filter has_box (match findings with Some fs => fs | None => [] end).

(** An overlay of the heatmap layer; the geometry is in per cent of the
    displayed image. *)
Record HeatDiv : Type := mkHeat {
  heat_idx : nat;
  heat_top : float;
  heat_left : float;
  heat_height : float;
  heat_width : float;
  background : string
}.

(** An overlay of the bounding box layer, with its badge and, when
    hovered, its tooltip (number, label, confidence). *)
Record BoxDiv : Type := mkBoxDiv {
  box_idx : nat;
  box_top : float;
  box_left : float;
  box_height : float;
  box_width : float;
  isHovered : bool;
  badge : nat;
  tooltip : option (nat * string * option string)
}.

Record Rendered : Type := mkRendered {
  heatLayer : list HeatDiv;
  boxLayer : list BoxDiv;
  emptyState : bool;
  legend : list (nat * string)
}.

Definition hovered (hoveredIndex : option nat) (idx : nat) : bool :=
  match hoveredIndex with
  | Some h => Nat.eqb h idx
  | None => false
  end.

Definition heatDiv (finding : MedicalFinding) (idx : nat) : option HeatDiv :=
  match box_2d finding with
  | None => None
  | Some b =>
      Some (mkHeat idx (ymin b * 100) (xmin b * 100)
              ((ymax b - ymin b) * 100) ((xmax b - xmin b) * 100)
              (getHeatmapStyle (confidence finding)))
  end.

Definition boxDiv (hoveredIndex : option nat) (finding : MedicalFinding)
    (idx : nat) : option BoxDiv :=
  match box_2d finding with
  | None => None
  | Some b =>
      Some (mkBoxDiv idx (ymin b * 100) (xmin b * 100)
              ((ymax b - ymin b) * 100) ((xmax b - xmin b) * 100)
              (hovered hoveredIndex idx) (idx + 1)
              (if hovered hoveredIndex idx
               then Some (idx + 1, label finding, confidence finding)
               else None))
  end.

(** The component's output for a view mode and a hovered index. *)
Definition ImageAnnotator (viewMode : ViewMode) (hoveredIndex : option nat)
    (findings : option (list MedicalFinding)) : Rendered :=
  let visual := visualFindings findings in
  let hasFindings := Nat.ltb 0 (List.length visual) in
  mkRendered
    (if ViewMode_eqb viewMode heatmap || ViewMode_eqb viewMode combined
     then children (mapi heatDiv visual) else [])
    (if ViewMode_eqb viewMode box || ViewMode_eqb viewMode combined
     then children (mapi (boxDiv hoveredIndex) visual) else [])
    (negb hasFindings)
    (if hasFindings then mapi (fun f i => (i + 1, label f)) visual else []).

End Annotator.

(** ** src/components/UploadReport.tsx *)

Module UploadReport.

(** The 2D context's drawing state, as [downloadAnnotatedImage] sets it. *)
Record Ctx : Type := mkCtx {
  lineWidth : float;
  strokeStyle : string;
  font : string;
  fillStyle : string
}.

(** One drawing call on the canvas, with the styles it is drawn in. *)
Inductive Draw : Type :=
| drawImage (src : string) (dx dy : float)
| strokeRect (x y w h : float) (width : float) (style : string)
| fillRect (x y w h : float) (style : string)
| fillText (text : string) (x y : float) (style : string) (fnt : string).

(** The browser around the export: the natural size of the image once it
    has loaded ([None] when [onload] never fires), whether the canvas gives
    a 2D context, and the width [measureText] reports in a font. *)
Record Env : Type := mkEnv {
  loadImage : string -> option (float * float);
  getContext : bool;
  measureText : string -> string -> float
}.

(** The file handed to the browser: the canvas's size and content and the
    download's name. *)
Record Download : Type := mkDownload {
  canvas_width : float;
  canvas_height : float;
  drawn : list Draw;
  download : string
}.

(** The body of [findings.forEach((finding, idx) => ...)] on the context
    and the drawing calls made so far. *)
Definition annotate (env : Env) (width height : float)
    (st : Ctx * list Draw) (finding : MedicalFinding) (idx : nat)
  : Ctx * list Draw :=
  let (ctx, out) := st in
  match box_2d finding with
  | None => (ctx, out)
  | Some b =>
      let x := (xmin b * width)%float in
      let y := (ymin b * height)%float in
      let w := ((xmax b - xmin b) * width)%float in
      let h := ((ymax b - ymin b) * height)%float in
      let text := (string_of_index (idx + 1) ++ ": " ++ label finding)%string in
      let metrics := measureText env (font ctx) text in
      (mkCtx (lineWidth ctx) (strokeStyle ctx) (font ctx) "#ef4444",
       out ++ [ strokeRect x y w h (lineWidth ctx) (strokeStyle ctx);
                fillRect x (y - 30) (metrics + 10) 30 "rgba(0,0,0,0.7)";
                fillText text (x + 5) (y - 8) "#ffffff" (font ctx) ])
  end.

Fixpoint forEach_from {A St} (i : nat) (f : St -> A -> nat -> St) (st : St)
    (xs : list A) : St :=
  match xs with
  | [] => st
  | x :: xs' => forEach_from (S i) f (f st x i) xs'
  end.

Definition downloadAnnotatedImage (env : Env)
    (file : UploadedFile AnalysisResult) : option Download :=
  match or_else (processedUrl file) (previewUrl file), analysisResult file with
  | Some imageUrl, Some result =>
      if String.eqb imageUrl "" then None
      else
        match loadImage env imageUrl with
        | None => None
        | Some (width, height) =>
            if getContext env then
              let ctx := mkCtx 5 "#ef4444" "bold 24px Inter, sans-serif" "#ef4444" in
              let st := forEach_from 0 (annotate env width height)
                          (ctx, [drawImage imageUrl 0 0]) (findings result) in
              Some (mkDownload width height (snd st)
                      ("processed-analysis-" ++ name file ++ ".png")%string)
            else None
        end
  | _, _ => None
  end.

(** The classes of a card's confidence pill:
    [finding.confidence.toLowerCase().includes('high') ? ... : ...],
    which reads a method of the confidence without guarding it. *)
Definition confidencePill (confidence : option string) : completion string :=
  match confidence with
  | None => Throw TypeError
  | Some c =>
      Normal (if includes (toLowerCase c) "high"
              then "bg-red-50 text-red-700 border-red-100"
              else "bg-yellow-50 text-yellow-700 border-yellow-100")
  end.

(** A card of the textual findings column: its number, the label, the
    classes of the confidence pill and the confidence it shows, and the
    explanation. *)
Record Card : Type := mkCard {
  number : nat;
  card_label : string;
  pill : string;
  shown_confidence : option string;
  card_explanation : string
}.

(** The callback of [findings.map((finding, idx) => ...)]: it throws when
    the pill's classes cannot be computed. *)
Definition card (finding : MedicalFinding) (idx : nat) : completion Card :=
  bindc (confidencePill (confidence finding)) (fun classes =>
    Normal (mkCard (idx + 1) (label finding) classes (confidence finding)
              (explanation finding))).

(** [xs.map(card)], counting from [i]: the first callback that throws ends
    the rendering. *)
Fixpoint cards_from (i : nat) (fs : list MedicalFinding)
  : completion (list Card) :=
  match fs with
  | [] => Normal []
  | f :: fs' =>
      bindc (card f i) (fun c =>
        bindc (cards_from (S i) fs') (fun cs => Normal (c :: cs)))
  end.

(** The cards of the textual findings column, one for every finding of the
    report in report order (none for an empty report, where the page shows
    its "No specific anomalies" notice instead). *)
Definition detailedAnomalies (result : AnalysisResult) : completion (list Card) :=
  cards_from 0 (findings result).

End UploadReport.

(** ** src/App.tsx: the upload pipeline *)

Module App.

(** The report a record carries at run time: the object returned by
    [analyzeMedicalDocument]. *)
Definition Report : Type := JS.object.

(** The [File] chosen in the input element. *)
Record InputFile : Type := mkInput {
  input_name : string;
  input_type : string
}.

(** The calls the pipeline makes to its stages, in the order made. *)
Inductive Call : Type :=
| processMedicalImage_call (base64Data : option string) (mimeType : string)
| analyzeMedicalDocument_call (base64Data : option string) (mimeType : string)
| addPatientReport_call (userId : string) (file : UploadedFile Report)
| updateDoc_call (userId : string) (file : UploadedFile Report).

(** The component's state that the handler reads and writes, and the
    calls made so far. *)
Record State : Type := mkState {
  isUploading : bool;
  processingStatus : string;
  files : list (UploadedFile Report);
  isFirebaseConnected : bool;
  calls : list Call
}.

(** The outside of the handler: both services, the [FileReader]'s result
    at [loadend] ([None] is the [null] of a failed read), and the clock. *)
Record Env : Type := mkEnv {
  gemini : Gemini.Env;
  firebase : Firebase.Env Report;
  readAsDataURL : InputFile -> option string;
  Date_now : string;
  Date_toISOString : string
}.

(** Handlers run in a state and end normally or by a throw. *)
Definition M (A : Type) : Type := State -> completion A * State.

Definition ret {A} (a : A) : M A := fun st => (Normal a, st).

Definition throw {A} (e : error) : M A := fun st => (Throw e, st).

Definition bind {A B} (m : M A) (k : A -> M B) : M B :=
  fun st =>
    match m st with
    | (Normal a, st') => k a st'
    | (Throw e, st') => (Throw e, st')
    end.

Notation "x <- m ;; k" := (bind m (fun x => k))
  (at level 61, m at next level, right associativity).
Notation "m ;; k" := (bind m (fun _ => k))
  (at level 61, right associativity).

Definition lift {A} (c : completion A) : M A := fun st => (c, st).

(** [try { body } catch (error) { handler }] *)
Definition try_catch {A} (body : M A) (handler : error -> M A) : M A :=
  fun st =>
    match body st with
    | (Normal a, st') => (Normal a, st')
    | (Throw e, st') => handler e st'
    end.

(** [try { body } finally { final }] *)
Definition try_finally {A} (body : M A) (final : M unit) : M A :=
  fun st =>
    let (c, st') := body st in
    match final st' with
    | (Normal _, st'') => (c, st'')
    | (Throw e, st'') => (Throw e, st'')
    end.

Definition setIsUploading (b : bool) : M unit :=
  fun st =>
    (Normal tt,
     mkState b (processingStatus st) (files st) (isFirebaseConnected st) (calls st)).

Definition setProcessingStatus (s : string) : M unit :=
  fun st =>
    (Normal tt,
     mkState (isUploading st) s (files st) (isFirebaseConnected st) (calls st)).

Definition setFiles (f : list (UploadedFile Report) -> list (UploadedFile Report))
  : M unit :=
  fun st =>
    (Normal tt,
     mkState (isUploading st) (processingStatus st) (f (files st))
       (isFirebaseConnected st) (calls st)).

Definition called (cs : list Call) : M unit :=
  fun st =>
    (Normal tt,
     mkState (isUploading st) (processingStatus st) (files st)
       (isFirebaseConnected st) (calls st ++ cs)).

Definition DEMO_USER_ID : string := "demo_patient_001".

Definition processMedicalImage (env : Env) (base64Data : option string)
    (mimeType : string) : M (option string) :=
  called [processMedicalImage_call base64Data mimeType] ;;
  lift (Gemini.processMedicalImage (gemini env) base64Data mimeType).

Definition analyzeMedicalDocument (env : Env) (base64Data : option string)
    (mimeType : string) : M Report :=
  called [analyzeMedicalDocument_call base64Data mimeType] ;;
  lift (Gemini.analyzeMedicalDocument (gemini env) base64Data mimeType).

Definition addPatientReport (env : Env) (userId : string)
    (file : UploadedFile Report) : M unit :=
  called [addPatientReport_call userId file] ;;
  called (map (fun w => updateDoc_call (fst w) (snd w))
            (fst (Firebase.addPatientReport (firebase env) userId file))) ;;
  lift (snd (Firebase.addPatientReport (firebase env) userId file)).

(** The record built once both stages have answered. *)
Definition newFile (env : Env) (file : InputFile) (base64DataUrl : string)
    (processedImageBase64 : option string) (analysisResult : Report)
  : UploadedFile Report :=
  mkFile (Date_now env) (input_name file) (input_type file)
    (Date_toISOString env) (Some base64DataUrl)
    (match processedImageBase64 with
     | Some p =>
         if String.eqb p "" then None
         else Some ("data:image/png;base64," ++ p)%string
     | None => None
     end)
    (Some analysisResult).

(** The body of the [try] block of [reader.onloadend]. *)
Definition pipeline (env : Env) (file : InputFile) (base64DataUrl : string)
    (base64String : option string) (mimeType : string) : M unit :=
  imgs <- (if startsWith (input_type file) "image/" then
             setProcessingStatus "Removing noise & cropping..." ;;
             processed <- processMedicalImage env base64String mimeType ;;
             if truthy processed then ret (processed, processed)
             else ret (None, base64String)
           else ret (None, base64String)) ;;
  let processedImageBase64 : option string := fst imgs in
  let finalImageBase64 : option string := snd imgs in
  setProcessingStatus "Detecting anomalies..." ;;
  analysisResult <- analyzeMedicalDocument env finalImageBase64 mimeType ;;
  st <- (fun st => (Normal st, st)) ;;
  if isFirebaseConnected st then
    setProcessingStatus "Saving to database..." ;;
    addPatientReport env DEMO_USER_ID
      (newFile env file base64DataUrl processedImageBase64 analysisResult)
  else
    setFiles (fun prev =>
      newFile env file base64DataUrl processedImageBase64 analysisResult :: prev).

(** [reader.onloadend]: the two lines that take the result apart stand
    before the [try], so a [null] result throws past the [finally]. *)
Definition onloadend (env : Env) (file : InputFile) : M unit :=
  match readAsDataURL env file with
  | None => throw TypeError
  | Some base64DataUrl =>
      let base64String := nth_error (split "," base64DataUrl) 1 in
      let mimeType := input_type file in
      try_finally
        (try_catch (pipeline env file base64DataUrl base64String mimeType)
           (fun _ => ret tt))
        (setIsUploading false ;; setProcessingStatus "")
  end.

(** [handleFileUpload], followed by the [loadend] event that
    [reader.readAsDataURL(file)] leads to. *)
Definition handleFileUpload (env : Env) (e_target_files : option (list InputFile))
  : M unit :=
  match e_target_files with
  | None | Some [] => ret tt
  | Some (file :: _) =>
      setIsUploading true ;;
      setProcessingStatus "Uploading..." ;;
      onloadend env file
  end.

End App.

(** * Properties *)

(** ** The spec's wording of the confidence tiers *)

Module Wording.

(** The code unit [a] is the lower-case letter [b], in either case. *)
Definition same_letter (a b : ascii) : Prop :=
  a = b \/ (N_of_ascii a + 32 = N_of_ascii b /\ 65 <= N_of_ascii a <= 90)%N.

(** [s] spells the word [w] when case is ignored. *)
Inductive spells : string -> string -> Prop :=
| spells_nil : spells EmptyString EmptyString
| spells_cons a b s w :
    same_letter a b -> spells s w -> spells (String a s) (String b w).

(** [s] contains the word [w], case-insensitively. *)
Definition contains_ci (s w : string) : Prop :=
  exists pre mid post, s = (pre ++ mid ++ post)%string /\ spells mid w.

(** The words the classifier looks for are made of a..z. *)
Fixpoint lower_word (w : string) : Prop :=
  match w with
  | EmptyString => True
  | String b w' => (97 <= N_of_ascii b <= 122)%N /\ lower_word w'
  end.

End Wording.
Import Wording.

Module StringFacts.

Lemma toLowerCase_unit_letter (a b : ascii) :
  (97 <= N_of_ascii b <= 122)%N ->
  toLowerCase_unit a = b <-> same_letter a b.
Proof.
  intros Hb. unfold toLowerCase_unit, same_letter.
  pose proof (N_ascii_bounded a) as Ha.
  destruct ((65 <=? N_of_ascii a) && (N_of_ascii a <=? 90)
            || (192 <=? N_of_ascii a) && (N_of_ascii a <=? 222)
               && negb (N_of_ascii a =? 215))%N eqn:E.
  - assert (Hn : N_of_ascii (ascii_of_N (N_of_ascii a + 32)) = (N_of_ascii a + 32)%N).
    { apply N_ascii_embedding.
      rewrite orb_true_iff, !andb_true_iff, !N.leb_le in E. lia. }
    split.
    + intros <-. right. rewrite Hn in *. lia.
    + intros [-> | [Hs Hr]].
      * exfalso.
        rewrite orb_true_iff, !andb_true_iff, !N.leb_le in E. lia.
      * rewrite Hs. apply ascii_N_embedding.
  - split.
    + intros <-. now left.
    + intros [-> | [Hs Hr]]; [reflexivity|].
      exfalso.
      rewrite orb_false_iff, !andb_false_iff, !N.leb_gt in E. lia.
Qed.

Lemma prefix_cons (a b : ascii) (w s : string) :
  String.prefix (String a w) (String b s) = true <->
  b = a /\ String.prefix w s = true.
Proof.
  simpl. destruct (ascii_dec a b) as [->|Hne].
  - tauto.
  - split; [discriminate | intros [E _]; now subst].
Qed.

(** The word is a prefix of the lower-cased string exactly when the string
    starts with a spelling of it. *)
Lemma prefix_toLowerCase (w : string) :
  lower_word w ->
  forall s,
    String.prefix w (toLowerCase s) = true <->
    exists mid post, s = (mid ++ post)%string /\ spells mid w.
Proof.
  induction w as [|b w IH]; intros Hw s.
  - split.
    + intros _. exists EmptyString, s. split; [reflexivity | constructor].
    + intros _. destruct s; reflexivity.
  - destruct Hw as [Hb Hw]. destruct s as [|a s].
    + split; [discriminate|].
      intros (mid & post & E & Hsp). inversion Hsp; subst. discriminate.
    + cbn [toLowerCase]. rewrite prefix_cons, (toLowerCase_unit_letter a b Hb), (IH Hw s).
      split.
      * intros (Hl & mid & post & -> & Hsp).
        exists (String a mid), post. split; [reflexivity | now constructor].
      * intros (mid & post & E & Hsp). inversion Hsp; subst.
        cbn in E. injection E as <- ->. split; [assumption|].
        now exists s0, post.
Qed.

Lemma includes_toLowerCase (w : string) :
  lower_word w ->
  forall s, includes (toLowerCase s) w = true <-> contains_ci s w.
Proof.
  intros Hw. induction s as [|a s IH].
  - cbn [toLowerCase includes]. rewrite orb_false_r.
    change EmptyString with (toLowerCase EmptyString) at 1.
    rewrite (prefix_toLowerCase w Hw). split.
    + intros (mid & post & E & Hsp). now exists EmptyString, mid, post.
    + intros (pre & mid & post & E & Hsp).
      destruct pre; [|discriminate]. now exists mid, post.
  - cbn [toLowerCase includes]. rewrite orb_true_iff, IH.
    change (String (toLowerCase_unit a) (toLowerCase s))
      with (toLowerCase (String a s)).
    rewrite (prefix_toLowerCase w Hw). split.
    + intros [(mid & post & E & Hsp) | (pre & mid & post & E & Hsp)].
      * now exists EmptyString, mid, post.
      * exists (String a pre), mid, post. now rewrite E.
    + intros (pre & mid & post & E & Hsp). destruct pre as [|c pre].
      * left. now exists mid, post.
      * right. cbn in E. injection E as _ ->. now exists pre, mid, post.
Qed.

Lemma lower_word_high : lower_word "high".
Proof. cbn; repeat split; lia. Qed.

Lemma lower_word_medium : lower_word "medium".
Proof. cbn; repeat split; lia. Qed.

End StringFacts.

(** ** The heatmap bands and the overlays (ImageAnnotator.tsx) *)

Module AnnotatorProps.
Import Annotator StringFacts.

(** The spec's three bands, and the gradient that paints each. *)
Inductive band : Type := band_A | band_B | band_C.

Definition band_style (b : band) : string :=
  match b with
  | band_A => gradient_high
  | band_B => gradient_medium
  | band_C => gradient_low
  end.

(** The visual findings that have an overlay in some layer, by their index. *)
Definition overlaid (r : Rendered) : list nat :=
  nodup Nat.eq_dec (map heat_idx (heatLayer r) ++ map box_idx (boxLayer r)).

Lemma band_style_inj (a b : band) : band_style a = band_style b -> a = b.
Proof. destruct a, b; intros E; try reflexivity; discriminate E. Qed.

Lemma includes_high (s : string) :
  includes (toLowerCase s) "high" = true <-> contains_ci s "high".
Proof. apply includes_toLowerCase, lower_word_high. Qed.

Lemma includes_medium (s : string) :
  includes (toLowerCase s) "medium" = true <-> contains_ci s "medium".
Proof. apply includes_toLowerCase, lower_word_medium. Qed.

Lemma getHeatmapStyle_Some (s : string) :
  getHeatmapStyle (Some s) =
  if includes (toLowerCase s) "high" then gradient_high
  else if includes (toLowerCase s) "medium" then gradient_medium
  else gradient_low.
Proof. reflexivity. Qed.

(** C2: the band is a function of the confidence string alone: band A when
    it contains "high" in any case, else band B when it contains "medium"
    in any case, else band C, a missing or empty string included; the six
    strings of the spec fall in A, A, B, C, C, C; the bands are painted
    differently. *)
Theorem getHeatmapStyle_three_bands (confidence : option string) :
  let s := match confidence with Some s => s | None => EmptyString end in
  (contains_ci s "high" -> getHeatmapStyle confidence = band_style band_A)
  /\ (~ contains_ci s "high" -> contains_ci s "medium" ->
      getHeatmapStyle confidence = band_style band_B)
  /\ (~ contains_ci s "high" -> ~ contains_ci s "medium" ->
      getHeatmapStyle confidence = band_style band_C)
  /\ map getHeatmapStyle
       [Some "High"; Some "HIGH risk"; Some "medium"; Some ""; Some "Low";
        Some "unexpected"; None]
     = map band_style [band_A; band_A; band_B; band_C; band_C; band_C; band_C]
  /\ (forall a b, band_style a = band_style b -> a = b).
Proof.
  assert (Hnone : getHeatmapStyle None = getHeatmapStyle (Some EmptyString))
    by reflexivity.
  assert (Hs : forall s,
             (contains_ci s "high" -> getHeatmapStyle (Some s) = gradient_high)
             /\ (~ contains_ci s "high" -> contains_ci s "medium" ->
                 getHeatmapStyle (Some s) = gradient_medium)
             /\ (~ contains_ci s "high" -> ~ contains_ci s "medium" ->
                 getHeatmapStyle (Some s) = gradient_low)).
  { intros s. rewrite getHeatmapStyle_Some.
    pose proof (includes_high s) as Hh. pose proof (includes_medium s) as Hm.
    destruct (includes (toLowerCase s) "high");
      destruct (includes (toLowerCase s) "medium");
      repeat split; intros; try reflexivity; exfalso;
      intuition discriminate. }
  cbn zeta. destruct confidence as [s|].
  - destruct (Hs s) as (H1 & H2 & H3).
    repeat split; try assumption; try reflexivity. apply band_style_inj.
  - rewrite Hnone. destruct (Hs EmptyString) as (H1 & H2 & H3).
    repeat split; try assumption; try reflexivity. apply band_style_inj.
Qed.

(** C10: a confidence string that contains both "high" and "medium", in any
    case, is put in band A: the test for "high" comes first. *)
Theorem getHeatmapStyle_high_before_medium (s : string) :
  contains_ci s "high" -> contains_ci s "medium" ->
  getHeatmapStyle (Some s) = band_style band_A.
Proof.
  intros Hh _. rewrite getHeatmapStyle_Some.
  apply includes_high in Hh. now rewrite Hh.
Qed.

Lemma getHeatmapStyle_high_before_medium_witness :
  contains_ci "medium-high" "high" /\ contains_ci "medium-high" "medium"
  /\ getHeatmapStyle (Some "medium-high") = band_style band_A.
Proof.
  assert (H1 : contains_ci "medium-high" "high").
  { exists "medium-", "high", EmptyString.
    split; [reflexivity | repeat constructor]. }
  assert (H2 : contains_ci "medium-high" "medium").
  { exists EmptyString, "medium", "-high".
    split; [reflexivity | repeat constructor]. }
  split; [exact H1 | split; [exact H2 |]].
  exact (getHeatmapStyle_high_before_medium "medium-high" H1 H2).
Defined.

End AnnotatorProps.

Module OverlayProps.
Import Annotator AnnotatorProps.

Lemma mapi_from_length {A B} (f : A -> nat -> B) (xs : list A) (i : nat) :
  List.length (mapi_from i f xs) = List.length xs.
Proof.
  revert i. induction xs as [|x xs IH]; intros i; cbn; [reflexivity|].
  now rewrite IH.
Qed.

Lemma heat_indices (fs : list MedicalFinding) :
  Forall (fun f => has_box f = true) fs ->
  forall i, map heat_idx (children (mapi_from i heatDiv fs))
            = seq i (List.length fs).
Proof.
  induction 1 as [|f fs Hf _ IH]; intros i; [reflexivity|].
  cbn [mapi_from]. unfold heatDiv at 1. unfold has_box in Hf.
  destruct (box_2d f); [|discriminate].
  cbn. now rewrite IH.
Qed.

Lemma box_indices (hoveredIndex : option nat) (fs : list MedicalFinding) :
  Forall (fun f => has_box f = true) fs ->
  forall i, map box_idx (children (mapi_from i (boxDiv hoveredIndex) fs))
            = seq i (List.length fs).
Proof.
  induction 1 as [|f fs Hf _ IH]; intros i; [reflexivity|].
  cbn [mapi_from]. unfold boxDiv at 1. unfold has_box in Hf.
  destruct (box_2d f); [|discriminate].
  cbn. now rewrite IH.
Qed.

Lemma visual_all_boxed (fs : list MedicalFinding) :
  Forall (fun f => has_box f = true) (filter has_box fs).
Proof. apply Forall_forall. intros f Hin. now apply filter_In in Hin. Qed.

Lemma nodup_absorb (l1 l2 : list nat) :
  incl l1 l2 -> nodup Nat.eq_dec (l1 ++ l2) = nodup Nat.eq_dec l2.
Proof.
  induction l1 as [|a l1 IH]; intros Hin; [reflexivity|].
  cbn. destruct (in_dec Nat.eq_dec a (l1 ++ l2)) as [_|Hn].
  - apply IH. intros x Hx. apply Hin. now right.
  - exfalso. apply Hn, in_or_app. right. apply Hin. now left.
Qed.

Lemma nodup_seq_twice (n : nat) :
  nodup Nat.eq_dec (seq 0 n ++ seq 0 n) = seq 0 n.
Proof.
  rewrite nodup_absorb by apply incl_refl.
  apply nodup_fixed_point, seq_NoDup.
Qed.

Lemma filter_partition_length {A} (p : A -> bool) (xs : list A) :
  List.length xs
  = List.length (filter p xs) + List.length (filter (fun x => negb (p x)) xs).
Proof.
  induction xs as [|x xs IH]; [reflexivity|].
  cbn. destruct (p x); cbn; lia.
Qed.

End OverlayProps.

(** ** The two Gemini stages (geminiService.ts) *)

Module GeminiProps.
Import Gemini.

(** The [findings] field of a parsed response; a response that is not an
    object has none. *)
Definition findings_field (parsed : value) : option value :=
  match parsed with
  | JObj props => lookup "findings" props
  | _ => None
  end.

(** A findings field that is missing, [null], or anything but an array. *)
Definition not_a_sequence (f : option value) : Prop :=
  match f with
  | Some (JArr _) => False
  | _ => True
  end.




(** The enhancement call cannot be made, throws, or answers without a
    usable image. *)
Definition enhancement_fails (env : Env) (base64Data : option string)
    (mime : string) : Prop :=
  getGenAIClient env = None
  \/ exists ai,
       getGenAIClient env = Some ai
       /\ ((exists e,
              generateContent env ai (enhanceRequest base64Data mime) = Throw e)
           \/ (exists response,
                 generateContent env ai (enhanceRequest base64Data mime)
                 = Normal response
                 /\ truthy (first_inline (response_parts response)) = false)).

(** A parser for the three texts the examples use. *)
Definition parse_example (t : string) : completion value :=
  if String.eqb t "{}" then Normal (JObj [])
  else if String.eqb t "null" then Normal JNull
  else if String.eqb t "[]" then Normal (JArr [])
  else Throw SyntaxError.

(** A service that answers every request with the text [t] and no image. *)
Definition answering (t : string) : Env :=
  mkEnv (Some "key") (fun _ _ => Normal (mkResponse (Some t) None))
    parse_example.

(** A service whose analysis model is down, and whose image model answers
    with [image] when given. *)
Definition analysis_down (image : option string) : Env :=
  mkEnv (Some "key")
    (fun _ req =>
       if String.eqb (model req) "gemini-3-flash-preview"
       then Throw (ServiceError "unavailable")
       else Normal (mkResponse None
                      (Some [mkCandidate (Some (mkContent (Some
                         [mkPart None (Some "done");
                          mkPart (Some (mkInline image "image/png")) None])))])))
    parse_example.

Lemma lookup_assign (k : string) (v : value) (o : object) :
  lookup k (assign k v o) = Some v.
Proof.
  induction o as [|[k' v'] o IH]; cbn.
  - now rewrite String.eqb_refl.
  - destruct (String.eqb k k') eqn:E; cbn; rewrite ?String.eqb_refl, ?E; auto.
Qed.

Lemma coerce_findings (parsed : value) (report : object) :
  coerce parsed = Normal report ->
  exists xs, lookup "findings" report = Some (JArr xs)
             /\ (not_a_sequence (findings_field parsed) -> xs = []).
Proof.
  unfold coerce. destruct parsed; cbn; try discriminate;
    intros [= <-]; rewrite ?lookup_assign.
  1-4: cbn; eexists; split; [reflexivity | reflexivity].
  destruct (lookup "findings" props) as [[]|];
    eexists; (split; [reflexivity|]); cbn; tauto.
Qed.

Example coerce_null_findings :
  coerce (JObj [("summary", JStr "Clear."); ("findings", JNull)])
  = Normal [("summary", JStr "Clear."); ("findings", JArr [])].
Proof. reflexivity. Qed.

Example coerce_text_findings :
  coerce (JObj [("findings", JStr "none"); ("disclaimer", JStr "Screening only.")])
  = Normal [("findings", JArr []); ("disclaimer", JStr "Screening only.")].
Proof. reflexivity. Qed.

Example coerce_string_response :
  coerce (JStr "ok")
  = Normal [("0", JStr "o"); ("1", JStr "k"); ("findings", JArr [])].
Proof. reflexivity. Qed.

Example coerce_null_response : coerce JNull = Throw TypeError.
Proof. reflexivity. Qed.

(** The analysis stage always returns, and its findings are an array. *)
Lemma analyzeMedicalDocument_returns (env : Env) (data : option string)
    (mime : string) :
  exists report xs,
    analyzeMedicalDocument env data mime = Normal report
    /\ lookup "findings" report = Some (JArr xs).
Proof.
  unfold analyzeMedicalDocument.
  destruct (getGenAIClient env) as [ai|]; [|now exists defaultError, []].
  destruct (generateContent env ai _) as [response|e]; cbn;
    [|now exists catchError, []].
  destruct (text response) as [t|]; [|now exists defaultError, []].
  destruct (String.eqb t ""); [now exists defaultError, []|].
  destruct (JSON_parse env t) as [parsed|e]; cbn; [|now exists catchError, []].
  destruct (coerce parsed) as [report|e] eqn:E; cbn; [|now exists catchError, []].
  destruct (coerce_findings _ _ E) as (xs & Hxs & _). now exists report, xs.
Qed.

(** The enhancement stage always returns. *)
Lemma processMedicalImage_returns (env : Env) (data : option string)
    (mime : string) :
  exists r, processMedicalImage env data mime = Normal r.
Proof.
  unfold processMedicalImage.
  destruct (getGenAIClient env) as [ai|]; [|now exists None].
  destruct (generateContent env ai _) as [response|e]; cbn; eauto.
Qed.


Lemma enhancement_fails_falsy (env : Env) (data : option string)
    (mime : string) :
  enhancement_fails env data mime ->
  exists r, processMedicalImage env data mime = Normal r /\ truthy r = false.
Proof.
  unfold processMedicalImage.
  intros [Hn | (ai & Hai & [[e He] | (response & Hr & Hf)])].
  - rewrite Hn. now exists None.
  - rewrite Hai, He. now exists None.
  - rewrite Hai, Hr. cbn. eauto.
Qed.

(** C1: when the analysis model answers and the findings field of the
    parsed answer is missing, [null], or not an array, the stage returns
    (it does not throw) a report whose findings are the empty array. *)
Theorem analyzeMedicalDocument_coerces_findings (env : Env)
    (data : option string) (mime : string) (ai : Client)
    (response : Response) (t : string) (parsed : value) :
  getGenAIClient env = Some ai ->
  generateContent env ai (analysisRequest data mime) = Normal response ->
  text response = Some t ->
  JSON_parse env t = Normal parsed ->
  not_a_sequence (findings_field parsed) ->
  exists report,
    analyzeMedicalDocument env data mime = Normal report
    /\ lookup "findings" report = Some (JArr []).
Proof.
  intros Hai Hr Ht Hp Hf.
  unfold analyzeMedicalDocument. rewrite Hai, Hr. cbn. rewrite Ht.
  destruct (String.eqb_spec t ""); [now exists defaultError|]. rewrite Hp. cbn.
  destruct (coerce parsed) as [report|e] eqn:E; cbn.
  - exists report. split; [reflexivity|].
    destruct (coerce_findings _ _ E) as (xs & Hxs & Hnil).
    now rewrite Hxs, (Hnil Hf).
  - now exists catchError.
Qed.

Lemma analyzeMedicalDocument_coerces_findings_witness :
  not_a_sequence (findings_field (JObj []))
  /\ exists report,
       analyzeMedicalDocument (answering "{}") (Some "AAAA") "image/png"
       = Normal report
       /\ lookup "findings" report = Some (JArr []).
Proof.
  split; [exact I|].
  apply (analyzeMedicalDocument_coerces_findings (answering "{}")
           (Some "AAAA") "image/png" (GoogleGenAI "key")
           (mkResponse (Some "{}") None) "{}" (JObj [])).
  - reflexivity.
  - reflexivity.
  - reflexivity.
  - reflexivity.
  - exact I.
Defined.

End GeminiProps.

(** ** The pipeline (App.tsx) *)

Module AppProps.
Import App GeminiProps.

Definition value_of {A} (c : completion A) (d : A) : A :=
  match c with
  | Normal a => a
  | Throw _ => d
  end.

(** The run of [handleFileUpload] in closed form, for a read that gave
    [base64DataUrl]: the original bytes, the enhanced bytes that are used,
    the bytes analysed, the report, the record, and the calls made. *)
Definition original (base64DataUrl : string) : option string :=
  nth_error (split "," base64DataUrl) 1.

Definition enhanced (env : Env) (file : InputFile) (base64DataUrl : string)
  : option string :=
  if startsWith (input_type file) "image/" then
    let p := value_of (Gemini.processMedicalImage (gemini env)
                         (original base64DataUrl) (input_type file)) None in
    if truthy p then p else None
  else None.

Definition final (env : Env) (file : InputFile) (base64DataUrl : string)
  : option string :=
  match enhanced env file base64DataUrl with
  | Some p => Some p
  | None => original base64DataUrl
  end.

Definition report (env : Env) (file : InputFile) (base64DataUrl : string)
  : Report :=
  value_of (Gemini.analyzeMedicalDocument (gemini env)
              (final env file base64DataUrl) (input_type file))
    Gemini.catchError.

Definition record (env : Env) (file : InputFile) (base64DataUrl : string)
  : UploadedFile Report :=
  newFile env file base64DataUrl (enhanced env file base64DataUrl)
    (report env file base64DataUrl).

Definition stage_calls (env : Env) (file : InputFile) (base64DataUrl : string)
  : list Call :=
  (if startsWith (input_type file) "image/"
   then [processMedicalImage_call (original base64DataUrl) (input_type file)]
   else [])
  ++ [analyzeMedicalDocument_call (final env file base64DataUrl)
        (input_type file)].

Definition store_calls (env : Env) (file : InputFile) (base64DataUrl : string)
    (connected : bool) : list Call :=
  if connected then
    addPatientReport_call DEMO_USER_ID (record env file base64DataUrl)
    :: (if Firebase.db (firebase env)
        then [updateDoc_call DEMO_USER_ID
                (Firebase.safeFile (record env file base64DataUrl))]
        else [])
  else [].

(** The state a completed run ends in. *)
Definition settled (env : Env) (file : InputFile) (base64DataUrl : string)
    (st : State) : State :=
  mkState false ""
    (if isFirebaseConnected st then files st
     else record env file base64DataUrl :: files st)
    (isFirebaseConnected st)
    (calls st ++ stage_calls env file base64DataUrl
       ++ store_calls env file base64DataUrl (isFirebaseConnected st)).

(** Example surroundings: a reader that succeeds, a store that accepts
    every write, a fixed clock. *)
Definition example_env (g : Gemini.Env) : Env :=
  mkEnv g (Firebase.mkEnv true (fun _ _ => Normal tt))
    (fun f => Some ("data:" ++ input_type f ++ ";base64,AAAA")%string)
    "1700000000000" "2023-11-14T22:13:20.000Z".

Definition scan_jpg : InputFile := mkInput "scan.jpg" "image/jpeg".
Definition report_pdf : InputFile := mkInput "report.pdf" "application/pdf".
Definition idle : State := mkState false "" [] false [].

Ltac run_step :=
  cbn [value_of negb map app fst snd
       isUploading processingStatus files isFirebaseConnected calls].

Ltac run_store env st :=
  run_step;
  destruct (isFirebaseConnected st);
  [ unfold Firebase.addPatientReport;
    destruct (Firebase.db (firebase env)); run_step;
    [ match goal with
      | |- context [Firebase.updateDoc ?e ?u ?f] =>
          destruct (Firebase.updateDoc e u f) as [[]|]
      end | ]
  | ];
  run_step; rewrite <- ?app_assoc, ?app_nil_r; reflexivity.

(** A run whose read succeeded ends normally, in the settled state:
    whatever the stages and the store did, the upload is over. *)
Lemma handleFileUpload_run (env : Env) (file : InputFile)
    (rest : list InputFile) (base64DataUrl : string) (st : State) :
  readAsDataURL env file = Some base64DataUrl ->
  handleFileUpload env (Some (file :: rest)) st
  = (Normal tt, settled env file base64DataUrl st).
Proof.
  intros Hread.
  unfold handleFileUpload, onloadend. rewrite Hread.
  unfold settled, stage_calls, store_calls, record, report, final, enhanced.
  unfold try_finally, try_catch, pipeline, setIsUploading,
    setProcessingStatus, processMedicalImage, analyzeMedicalDocument,
    addPatientReport, called, lift, ret, setFiles, bind.
  fold (original base64DataUrl).
  run_step.
  destruct (startsWith (input_type file) "image/").
  - destruct (processMedicalImage_returns (gemini env)
                (original base64DataUrl) (input_type file)) as (p & Hp).
    rewrite Hp. run_step.
    destruct (truthy p) eqn:Htp.
    + destruct p as [p|]; [|discriminate].
      destruct (analyzeMedicalDocument_returns (gemini env) (Some p)
                  (input_type file)) as (r & xs & Hr & _).
      run_step. rewrite Hr. run_store env st.
    + destruct (analyzeMedicalDocument_returns (gemini env)
                  (original base64DataUrl) (input_type file))
        as (r & xs & Hr & _).
      run_step. rewrite Hr. run_store env st.
  - destruct (analyzeMedicalDocument_returns (gemini env)
                (original base64DataUrl) (input_type file))
      as (r & xs & Hr & _).
    run_step. rewrite Hr. run_store env st.
Qed.

Lemma enhanced_none_of_failure (env : Env) (file : InputFile) (url : string) :
  enhancement_fails (gemini env) (original url) (input_type file) ->
  enhanced env file url = None.
Proof.
  intros Hf. unfold enhanced.
  destruct (startsWith (input_type file) "image/"); [|reflexivity].
  destruct (enhancement_fails_falsy _ _ _ Hf) as (r & Hr & Ht).
  rewrite Hr. cbn. now rewrite Ht.
Qed.

Lemma newFile_processedUrl_None (env : Env) (file : InputFile) (url : string)
    (r : Report) :
  processedUrl (newFile env file url None r) = None.
Proof. reflexivity. Qed.

End AppProps.

Module PipelineClaims.
Import App GeminiProps AppProps.




(** C5 fails on a read that fails: whatever the services, when the reader's
    result at [loadend] is [null] the handler throws before its [try],
    so its [finally] never runs: the run ends by a [TypeError] with the
    upload still in progress and the status still "Uploading...". *)
Theorem read_failure_leaves_upload_in_progress (g : Gemini.Env)
    (f : Firebase.Env Report) (now iso : string) (file : InputFile)
    (rest : list InputFile) (st : State) :
  handleFileUpload (mkEnv g f (fun _ => None) now iso) (Some (file :: rest)) st
  = (Throw TypeError,
     mkState true "Uploading..." (files st) (isFirebaseConnected st) (calls st)).
Proof. reflexivity. Qed.

(** C6: for an image whose enhancement cannot be made, throws, or gives no
    usable image, the enhancement stage still returns (a falsy result), the
    run makes its analysis call with the original bytes, and the record has
    no processed URL. *)
Theorem enhancement_failure_keeps_original (env : Env) (file : InputFile)
    (rest : list InputFile) (url : string) (st : State) :
  startsWith (input_type file) "image/" = true ->
  readAsDataURL env file = Some url ->
  enhancement_fails (gemini env) (original url) (input_type file) ->
  (exists r, Gemini.processMedicalImage (gemini env) (original url)
               (input_type file) = Normal r /\ truthy r = false)
  /\ handleFileUpload env (Some (file :: rest)) st
     = (Normal tt, settled env file url st)
  /\ calls (settled env file url st)
     = calls st
       ++ [processMedicalImage_call (original url) (input_type file);
           analyzeMedicalDocument_call (original url) (input_type file)]
       ++ store_calls env file url (isFirebaseConnected st)
  /\ processedUrl (record env file url) = None.
Proof.
  intros Himg Hread Hfail.
  pose proof (enhanced_none_of_failure env file url Hfail) as Hnone.
  split; [now apply enhancement_fails_falsy|].
  split; [now apply handleFileUpload_run|].
  split.
  - unfold settled, stage_calls, final. cbn [calls].
    now rewrite Himg, Hnone.
  - unfold record. now rewrite Hnone.
Qed.

Lemma enhancement_failure_keeps_original_witness :
  enhancement_fails (answering "{}") (Some "AAAA") "image/jpeg"
  /\ calls (snd (handleFileUpload (example_env (answering "{}"))
                   (Some [scan_jpg]) idle))
     = [processMedicalImage_call (Some "AAAA") "image/jpeg";
        analyzeMedicalDocument_call (Some "AAAA") "image/jpeg"]
  /\ map processedUrl
       (files (snd (handleFileUpload (example_env (answering "{}"))
                      (Some [scan_jpg]) idle)))
     = [None].
Proof.
  assert (Hf : enhancement_fails (gemini (example_env (answering "{}")))
                 (original "data:image/jpeg;base64,AAAA")
                 (input_type scan_jpg)).
  { right. exists (Gemini.GoogleGenAI "key"). split; [reflexivity|].
    right. now exists (Gemini.mkResponse (Some "{}") None). }
  split; [exact Hf|].
  destruct (enhancement_failure_keeps_original
              (example_env (answering "{}")) scan_jpg []
              "data:image/jpeg;base64,AAAA" idle eq_refl eq_refl Hf)
    as (_ & Hrun & _ & _).
  rewrite Hrun. split; reflexivity.
Defined.

(** C7: for a file whose type does not start with "image/", the run never
    calls the enhancement stage, makes its analysis call with the original
    bytes, and the record has no processed URL. *)
Theorem non_image_skips_enhancement (env : Env) (file : InputFile)
    (rest : list InputFile) (url : string) (st : State) :
  startsWith (input_type file) "image/" = false ->
  readAsDataURL env file = Some url ->
  handleFileUpload env (Some (file :: rest)) st
  = (Normal tt, settled env file url st)
  /\ calls (settled env file url st)
     = calls st
       ++ [analyzeMedicalDocument_call (original url) (input_type file)]
       ++ store_calls env file url (isFirebaseConnected st)
  /\ (forall data mime,
        ~ In (processMedicalImage_call data mime)
            ([analyzeMedicalDocument_call (original url) (input_type file)]
             ++ store_calls env file url (isFirebaseConnected st)))
  /\ processedUrl (record env file url) = None.
Proof.
  intros Himg Hread.
  assert (Hnone : enhanced env file url = None)
    by (unfold enhanced; now rewrite Himg).
  split; [now apply handleFileUpload_run|].
  split; [|split].
  - unfold settled, stage_calls, final. cbn [calls].
    now rewrite Himg, Hnone.
  - intros data mime Hin. unfold store_calls in Hin.
    destruct (isFirebaseConnected st), (Firebase.db (firebase env));
      cbn in Hin; intuition discriminate.
  - unfold record. now rewrite Hnone.
Qed.

Lemma non_image_skips_enhancement_witness :
  startsWith (input_type report_pdf) "image/" = false
  /\ handleFileUpload (example_env (analysis_down (Some "BBBB")))
       (Some [report_pdf]) idle
     = (Normal tt,
        mkState false ""
          [mkFile "1700000000000" "report.pdf" "application/pdf"
             "2023-11-14T22:13:20.000Z"
             (Some "data:application/pdf;base64,AAAA") None
             (Some Gemini.catchError)]
          false
          [analyzeMedicalDocument_call (Some "AAAA") "application/pdf"]).
Proof.
  split; [reflexivity|].
  exact (proj1 (non_image_skips_enhancement
                  (example_env (analysis_down (Some "BBBB"))) report_pdf []
                  "data:application/pdf;base64,AAAA" idle eq_refl eq_refl)).
Defined.

End PipelineClaims.

(** ** The persistence hand-off (firebaseService.ts) *)

Module FirebaseProps.
Import Firebase.

(** A string of [n] copies of one code unit. *)
Definition replicate (n : N) (c : ascii) : string :=
  N.iter n (String c) EmptyString.

Lemma length_replicate (n : N) (c : ascii) :
  N.of_nat (String.length (replicate n c)) = n.
Proof.
  unfold replicate. induction n as [|n IH] using N.peano_ind; [reflexivity|].
  rewrite N.iter_succ. cbn [String.length]. rewrite Nat2N.inj_succ. now f_equal.
Qed.

Lemma length_or_0_append (a b : string) :
  length_or_0 (Some (a ++ b)%string)
  = (N.of_nat (String.length a) + N.of_nat (String.length b))%N.
Proof.
  unfold length_or_0. rewrite <- Nat2N.inj_add. f_equal.
  induction a as [|c a IH]; [reflexivity|]. cbn. now rewrite IH.
Qed.

(** A store that is up and accepts every write. *)
Definition accepting {R} : Env R := mkEnv true (fun _ _ => Normal tt).

(** A data URL of 800022 characters. *)
Definition large_url : string :=
  ("data:image/png;base64," ++ replicate 800000 "A")%string.

Lemma large_url_length : length_or_0 (Some large_url) = 800022%N.
Proof.
  unfold large_url. rewrite length_or_0_append, length_replicate. reflexivity.
Qed.

(** A record whose preview is small and whose processed image is large. *)
Definition large_processed : UploadedFile JS.object :=
  mkFile "1700000000000" "scan.jpg" "image/jpeg" "2023-11-14T22:13:20.000Z"
    (Some "data:image/jpeg;base64,AAAA") (Some large_url)
    (Some Gemini.defaultError).

(** A record whose preview is large and that has no processed image. *)
Definition large_preview : UploadedFile JS.object :=
  mkFile "1700000000000" "scan.jpg" "image/jpeg" "2023-11-14T22:13:20.000Z"
    (Some large_url) None (Some Gemini.defaultError).

(** A record is written as it is when its preview is within the limit. *)
Lemma safeFile_small_preview {R} (file : UploadedFile R) :
  (length_or_0 (previewUrl file) <= 800000)%N -> safeFile file = file.
Proof.
  intros H. unfold safeFile.
  destruct (N.ltb_spec 800000 (length_or_0 (previewUrl file))); [lia|reflexivity].
Qed.

(** The strip branch: when the store is up and the preview URL of the
    record is longer than 800000 characters, the copy that is written has
    the empty string for both its preview and its processed URL, and the
    record's other fields. *)
Theorem addPatientReport_strips_large_preview {R} (env : Env R)
    (userId : string) (file : UploadedFile R) :
  db env = true ->
  (800000 < length_or_0 (previewUrl file))%N ->
  fst (addPatientReport env userId file)
  = [(userId,
      mkFile (id file) (name file) (type file) (date file)
        (Some EmptyString) (Some EmptyString) (analysisResult file))].
Proof.
  intros Hdb Hlen. unfold addPatientReport, safeFile. rewrite Hdb.
  apply N.ltb_lt in Hlen. now rewrite Hlen.
Qed.

Lemma addPatientReport_strips_large_preview_witness :
  (800000 < length_or_0 (previewUrl large_preview))%N
  /\ fst (addPatientReport accepting "demo_patient_001" large_preview)
     = [("demo_patient_001",
         mkFile "1700000000000" "scan.jpg" "image/jpeg"
           "2023-11-14T22:13:20.000Z" (Some EmptyString) (Some EmptyString)
           (Some Gemini.defaultError))].
Proof.
  assert (H : (800000 < length_or_0 (previewUrl large_preview))%N).
  { cbn [previewUrl large_preview]. rewrite large_url_length. lia. }
  split; [exact H|].
  exact (addPatientReport_strips_large_preview accepting "demo_patient_001"
           large_preview eq_refl H).
Defined.

(** C9 fails on a record whose processed URL alone is over the limit: the
    guard measures the preview only, so with a preview within the limit
    the record is written as it is, its processed URL of 800022 characters
    included, although the strip branch itself blanks the processed URL as
    heavy data. *)
Lemma large_processedUrl_is_written :
  (800000 < length_or_0 (processedUrl large_processed))%N
  /\ fst (addPatientReport accepting "demo_patient_001" large_processed)
     = [("demo_patient_001", large_processed)]
  /\ processedUrl large_processed <> Some EmptyString.
Proof.
  assert (H : length_or_0 (processedUrl large_processed) = 800022%N)
    by apply large_url_length.
  split; [rewrite H; lia|]. split.
  - unfold addPatientReport.
    rewrite (safeFile_small_preview large_processed); [reflexivity|].
    cbn. lia.
  - intros E. rewrite E in H. discriminate H.
Qed.

End FirebaseProps.

(** ** The export renderer (UploadReport.tsx) *)

Module ExportProps.
Import UploadReport.

(** The rectangles stroked on the canvas, in drawing order. *)
Fixpoint strokes (ds : list Draw) : list (float * float * float * float) :=
  match ds with
  | [] => []
  | strokeRect x y w h _ _ :: ds' => (x, y, w, h) :: strokes ds'
  | _ :: ds' => strokes ds'
  end.

(** The boxes of a report, in report order. *)
Fixpoint boxes (fs : list MedicalFinding) : list BoundingBox :=
  match fs with
  | [] => []
  | f :: fs' =>
      match box_2d f with
      | Some b => b :: boxes fs'
      | None => boxes fs'
      end
  end.

(** A normalized box scaled to an image of [width] by [height] pixels. *)
Definition scaled (width height : float) (b : BoundingBox)
  : float * float * float * float :=
  (xmin b * width, ymin b * height,
   (xmax b - xmin b) * width, (ymax b - ymin b) * height)%float.

(** The export scenario: one finding on an image of 1000 by 800. *)
Definition scenario_env : Env :=
  mkEnv (fun _ => Some (1000, 800)%float) true (fun _ _ => 120%float).

Definition scenario_file : UploadedFile AnalysisResult :=
  mkFile "1700000000000" "scan.jpg" "image/jpeg" "2023-11-14T22:13:20.000Z"
    (Some "data:image/jpeg;base64,AAAA") None
    (Some (mkAnalysis
             [mkFinding "Possible Nodule" (Some "High")
                (Some (mkBox 0.1 0.1 0.3 0.4)) "Rounded opacity."]
             "One region of interest." "Not a diagnosis.")).

Lemma strokes_app (a b : list Draw) : strokes (a ++ b) = strokes a ++ strokes b.
Proof.
  induction a as [|d a IH]; [reflexivity|].
  destruct d; cbn; now rewrite IH.
Qed.

Lemma forEach_strokes (env : Env) (width height : float)
    (fs : list MedicalFinding) :
  forall (i : nat) (ctx : Ctx) (out : list Draw),
    strokes (snd (forEach_from i (annotate env width height) (ctx, out) fs))
    = strokes out ++ map (scaled width height) (boxes fs).
Proof.
  induction fs as [|f fs IH]; intros i ctx out.
  - cbn. now rewrite app_nil_r.
  - cbn [forEach_from boxes]. unfold annotate at 2.
    destruct (box_2d f) as [b|].
    + rewrite IH, strokes_app. cbn [strokes map app].
      now rewrite <- app_assoc.
    + apply IH.
Qed.

(** C3, as the code has it: once the image has loaded with its natural
    width and height, the canvas has that size and the rectangles stroked
    are, in report order, the boxes of the findings scaled by them in
    binary64 arithmetic: x = xmin * width, y = ymin * height,
    w = (xmax - xmin) * width, h = (ymax - ymin) * height.  For the box
    (0.1, 0.1, 0.3, 0.4) on 1000 by 800 that is the corner (100, 80), the
    height 160, and the width 300.00000000000006, one rounding step above
    300. *)
Theorem export_scales_boxes_by_natural_size (env : Env)
    (file : UploadedFile AnalysisResult) (result : AnalysisResult)
    (imageUrl : string) (width height : float) :
  or_else (processedUrl file) (previewUrl file) = Some imageUrl ->
  imageUrl <> EmptyString ->
  analysisResult file = Some result ->
  loadImage env imageUrl = Some (width, height) ->
  getContext env = true ->
  (exists d,
     downloadAnnotatedImage env file = Some d
     /\ canvas_width d = width /\ canvas_height d = height
     /\ strokes (drawn d) = map (scaled width height) (boxes (findings result)))
  /\ option_map (fun d => strokes (drawn d))
       (downloadAnnotatedImage scenario_env scenario_file)
     = Some [(100, 80, 300.00000000000006, 160)%float]
  /\ PrimFloat.ltb (abs (300.00000000000006 - 300)) 1e-13 = true.
Proof.
  intros Hurl Hne Hres Hload Hctx. split; [|split; reflexivity].
  unfold downloadAnnotatedImage. rewrite Hurl, Hres.
  destruct (String.eqb_spec imageUrl ""); [contradiction|].
  rewrite Hload, Hctx. eexists. split; [reflexivity|].
  cbn [canvas_width canvas_height drawn]. repeat split.
  now rewrite forEach_strokes.
Qed.

Lemma export_scales_boxes_by_natural_size_witness :
  exists d,
    downloadAnnotatedImage scenario_env scenario_file = Some d
    /\ canvas_width d = 1000%float /\ canvas_height d = 800%float
    /\ strokes (drawn d)
       = map (scaled 1000 800) [mkBox 0.1 0.1 0.3 0.4].
Proof.
  refine (proj1 (export_scales_boxes_by_natural_size scenario_env scenario_file
                   (mkAnalysis
                      [mkFinding "Possible Nodule" (Some "High")
                         (Some (mkBox 0.1 0.1 0.3 0.4)) "Rounded opacity."]
                      "One region of interest." "Not a diagnosis.")
                   "data:image/jpeg;base64,AAAA" 1000 800
                   eq_refl _ eq_refl eq_refl eq_refl)).
  discriminate.
Defined.

(** C3 as stated fails on its own example: the width stroked for the box
    (0.1, 0.1, 0.3, 0.4) on 1000 by 800 is not 300. *)
Lemma export_scenario_width_is_not_300 :
  option_map (fun d => strokes (drawn d))
    (downloadAnnotatedImage scenario_env scenario_file)
  <> Some [(100, 80, 300, 160)%float].
Proof.
  intros E.
  assert (H : option_map
                (fun d => match strokes (drawn d) with
                          | [(_, _, w, _)] => PrimFloat.eqb w 300
                          | _ => false
                          end)
                (downloadAnnotatedImage scenario_env scenario_file)
              = Some true).
  { destruct (downloadAnnotatedImage scenario_env scenario_file) as [d|];
      [|discriminate E].
    cbn in E |- *. injection E as ->. reflexivity. }
  vm_compute in H. discriminate H.
Qed.

End ExportProps.

(** * Further properties of the services, the pipeline and the renderers *)

(** ** The Gemini stages, beyond their failure paths *)

Module GeminiMore.
Import Gemini GeminiProps.

(** A service that answers every request with the text [t], which its
    parser reads as [parsed]. *)
Definition answering_with (t : string) (parsed : value) : Env :=
  mkEnv (Some "key") (fun _ _ => Normal (mkResponse (Some t) None))
    (fun _ => Normal parsed).

(** A report of one finding, as the model is asked to give it. *)
Definition nodule_report : object :=
  [ ("summary", JStr "One region of interest.");
    ("findings",
     JArr [JObj [("label", JStr "Possible Nodule");
                 ("confidence", JStr "High");
                 ("explanation", JStr "Rounded opacity.")]]);
    ("disclaimer", JStr "Not a diagnosis.") ].

Lemma assign_same (k : string) (v : value) (o : object) :
  lookup k o = Some v -> assign k v o = o.
Proof.
  induction o as [|[k' v'] o IH]; cbn; [discriminate|].
  destruct (String.eqb_spec k k') as [->|Hne].
  - now intros [= ->].
  - intros H. now rewrite IH.
Qed.

Lemma lookup_assign_other (k k' : string) (v : value) (o : object) :
  k' <> k -> lookup k' (assign k v o) = lookup k' o.
Proof.
  intros Hne. induction o as [|[k0 v0] o IH]; cbn.
  - destruct (String.eqb_spec k' k); [contradiction | reflexivity].
  - destruct (String.eqb_spec k k0) as [->|Hk]; cbn.
    + destruct (String.eqb_spec k' k0); [contradiction | reflexivity].
    + destruct (String.eqb_spec k' k0); [reflexivity | exact IH].
Qed.

(** Neither stage throws to its caller, whatever the model and the parser
    do: the enhancement stage always returns a value, and the analysis
    stage always returns a report whose findings are an array. *)
Theorem stages_never_throw (env : Env) (data : option string) (mime : string) :
  (exists r, processMedicalImage env data mime = Normal r)
  /\ (exists report xs,
        analyzeMedicalDocument env data mime = Normal report
        /\ lookup "findings" report = Some (JArr xs)).
Proof.
  split.
  - apply processMedicalImage_returns.
  - apply analyzeMedicalDocument_returns.
Qed.

(** A response that parses to an object whose findings are an array is
    returned as it was parsed: same properties, same order, same values. *)
Theorem wellformed_response_is_returned_unchanged (env : Env)
    (data : option string) (mime : string) (ai : Client)
    (response : Response) (t : string) (props : object) (xs : list value) :
  getGenAIClient env = Some ai ->
  generateContent env ai (analysisRequest data mime) = Normal response ->
  text response = Some t ->
  t <> EmptyString ->
  JSON_parse env t = Normal (JObj props) ->
  lookup "findings" props = Some (JArr xs) ->
  analyzeMedicalDocument env data mime = Normal props.
Proof.
  intros Hai Hr Ht Hne Hp Hf.
  unfold analyzeMedicalDocument. rewrite Hai, Hr. cbn. rewrite Ht.
  destruct (String.eqb_spec t ""); [contradiction|]. rewrite Hp.
  unfold coerce. cbn. rewrite Hf. now rewrite (assign_same _ _ _ Hf).
Qed.

Lemma wellformed_response_is_returned_unchanged_witness :
  analyzeMedicalDocument (answering_with "report" (JObj nodule_report))
    (Some "AAAA") "image/png"
  = Normal nodule_report.
Proof.
  refine (wellformed_response_is_returned_unchanged
            (answering_with "report" (JObj nodule_report)) (Some "AAAA")
            "image/png" (GoogleGenAI "key") (mkResponse (Some "report") None)
            "report" nodule_report _ eq_refl eq_refl eq_refl _ eq_refl eq_refl).
  discriminate.
Defined.

(** When the response parses to an object, the coercion touches its
    findings only: every other property of the report reads as parsed. *)
Theorem coercion_keeps_the_other_properties (env : Env)
    (data : option string) (mime : string) (ai : Client)
    (response : Response) (t : string) (props : object) (k : string) :
  getGenAIClient env = Some ai ->
  generateContent env ai (analysisRequest data mime) = Normal response ->
  text response = Some t ->
  t <> EmptyString ->
  JSON_parse env t = Normal (JObj props) ->
  k <> "findings" ->
  exists report,
    analyzeMedicalDocument env data mime = Normal report
    /\ lookup k report = lookup k props.
Proof.
  intros Hai Hr Ht Hne Hp Hk.
  unfold analyzeMedicalDocument. rewrite Hai, Hr. cbn. rewrite Ht.
  destruct (String.eqb_spec t ""); [contradiction|]. rewrite Hp.
  unfold coerce. cbn. eexists. split; [reflexivity|].
  now apply lookup_assign_other.
Qed.

Lemma coercion_keeps_the_other_properties_witness :
  exists report,
    analyzeMedicalDocument
      (answering_with "partial"
         (JObj [("summary", JStr "Clear."); ("findings", JNull)]))
      (Some "AAAA") "image/png"
    = Normal report
    /\ lookup "summary" report = Some (JStr "Clear.").
Proof.
  refine (coercion_keeps_the_other_properties
            (answering_with "partial"
               (JObj [("summary", JStr "Clear."); ("findings", JNull)]))
            (Some "AAAA") "image/png" (GoogleGenAI "key")
            (mkResponse (Some "partial") None) "partial"
            [("summary", JStr "Clear."); ("findings", JNull)] "summary"
            eq_refl eq_refl eq_refl _ eq_refl _); discriminate.
Defined.

Lemma first_inline_skips_text (texts rest : list Part) (d : InlineData)
    (t : option string) :
  Forall (fun p => inlineData p = None) texts ->
  first_inline (texts ++ mkPart (Some d) t :: rest) = data d.
Proof.
  induction 1 as [|p texts Hp _ IH]; cbn; [reflexivity|].
  now rewrite Hp.
Qed.

(** The enhancement stage returns the data of the first part of the first
    candidate that is an image, whatever text parts come before it and
    whatever parts follow. *)
Theorem enhancement_returns_the_first_image (env : Env)
    (data : option string) (mime : string) (ai : Client)
    (response : Response) (texts rest : list Part) (d : InlineData)
    (t : option string) :
  getGenAIClient env = Some ai ->
  generateContent env ai (enhanceRequest data mime) = Normal response ->
  response_parts response = texts ++ mkPart (Some d) t :: rest ->
  Forall (fun p => inlineData p = None) texts ->
  processMedicalImage env data mime = Normal (Gemini.data d).
Proof.
  intros Hai Hr Hparts Htexts.
  unfold processMedicalImage. rewrite Hai, Hr. cbn.
  now rewrite Hparts, first_inline_skips_text.
Qed.

Lemma enhancement_returns_the_first_image_witness :
  processMedicalImage (analysis_down (Some "BBBB")) (Some "AAAA") "image/jpeg"
  = Normal (Some "BBBB").
Proof.
  refine (enhancement_returns_the_first_image (analysis_down (Some "BBBB"))
            (Some "AAAA") "image/jpeg" (GoogleGenAI "key") _
            [mkPart None (Some "done")] []
            (mkInline (Some "BBBB") "image/png") None
            eq_refl eq_refl eq_refl _).
  repeat constructor.
Defined.

End GeminiMore.

(** ** Splitting and joining strings *)

Module SplitFacts.

(** The code units of [s] are all different from [sep]. *)
Definition free_of (sep : ascii) (s : string) : Prop :=
  ~ In sep (list_ascii_of_string s).

(** [xs.join(sep)] on an array of strings. *)
Definition join (sep : string) (xs : list string) : string :=
  String.concat sep xs.

Lemma split_not_nil (sep : ascii) (s : string) : split sep s <> [].
Proof.
  destruct s as [|c s]; cbn; [discriminate|].
  destruct (Ascii.eqb c sep); [discriminate|].
  destruct (split sep s); discriminate.
Qed.

Lemma free_of_cons (sep c : ascii) (s : string) :
  free_of sep (String c s) <-> c <> sep /\ free_of sep s.
Proof.
  unfold free_of. cbn. intuition congruence.
Qed.

Lemma split_free (sep : ascii) (s : string) :
  free_of sep s -> split sep s = [s].
Proof.
  induction s as [|c s IH]; intros Hf; [reflexivity|].
  apply free_of_cons in Hf as [Hc Hs]. cbn.
  destruct (Ascii.eqb_spec c sep); [contradiction|].
  now rewrite (IH Hs).
Qed.

Lemma split_app_sep (sep : ascii) (a b : string) :
  free_of sep a ->
  split sep (a ++ String sep b)%string = a :: split sep b.
Proof.
  induction a as [|c a IH]; intros Hf; cbn.
  - now rewrite Ascii.eqb_refl.
  - apply free_of_cons in Hf as [Hc Ha].
    destruct (Ascii.eqb_spec c sep); [contradiction|].
    now rewrite (IH Ha).
Qed.

Lemma pieces_free (sep : ascii) (s : string) :
  Forall (free_of sep) (split sep s).
Proof.
  induction s as [|c s IH]; cbn.
  - constructor; [|constructor]. intros [].
  - destruct (Ascii.eqb_spec c sep) as [->|Hne].
    + constructor; [intros [] | exact IH].
    + destruct (split sep s) as [|h t]; inversion IH; subst.
      * constructor; [|constructor]. apply free_of_cons. split; [assumption|].
        intros [].
      * constructor; [|assumption]. apply free_of_cons. now split.
Qed.

(** Joining the pieces of a split with the separator gives the string
    back; a split has at least one piece, and no piece holds the
    separator. *)
Lemma join_of_split (sep : ascii) (s : string) :
  join (String sep EmptyString) (split sep s) = s
  /\ split sep s <> []
  /\ Forall (free_of sep) (split sep s).
Proof.
  split; [|split; [apply split_not_nil | apply pieces_free]].
  unfold join. induction s as [|c s IH]; [reflexivity|].
  cbn [split]. destruct (Ascii.eqb_spec c sep) as [->|Hne].
  - pose proof (split_not_nil sep s) as Hn.
    destruct (split sep s) as [|h t]; [contradiction|].
    rewrite <- IH. reflexivity.
  - pose proof (split_not_nil sep s) as Hn.
    destruct (split sep s) as [|h t]; [contradiction|].
    rewrite <- IH. destruct t; reflexivity.
Qed.

End SplitFacts.

(** ** The pipeline, beyond its failure paths *)

Module PipelineMore.
Import App GeminiProps AppProps SplitFacts.

(** A store that is up and rejects every write. *)
Definition rejecting : Firebase.Env Report :=
  Firebase.mkEnv true (fun _ _ => Throw (ServiceError "permission-denied")).

(** The component once the store has been found ready. *)
Definition connected : State := mkState false "" [] true [].

(** A service with no key configured. *)
Definition no_key : Gemini.Env :=
  Gemini.mkEnv None (fun _ _ => Throw (ServiceError "unreachable"))
    (fun _ => Throw SyntaxError).

Lemma original_of_data_url (pre payload : string) :
  free_of "," pre -> free_of "," payload ->
  original (pre ++ String "," payload) = Some payload.
Proof.
  intros Hpre Hpay. unfold original.
  now rewrite split_app_sep, (split_free _ _ Hpay).
Qed.

(** The bytes handed to the stages are what follows the comma of the data
    URL: for a URL made of a comma-free header, a comma and a comma-free
    payload they are the payload; a result without a comma gives
    [undefined]. *)
Theorem base64_is_the_payload_of_the_data_url (pre payload : string) :
  free_of "," pre -> free_of "," payload ->
  original (pre ++ String "," payload) = Some payload
  /\ original pre = None.
Proof.
  intros Hpre Hpay. split.
  - now apply original_of_data_url.
  - unfold original. now rewrite (split_free _ _ Hpre).
Qed.

Lemma base64_is_the_payload_of_the_data_url_witness :
  original "data:image/jpeg;base64,AAAA" = Some "AAAA"
  /\ original "data:image/jpeg;base64" = None.
Proof.
  refine (base64_is_the_payload_of_the_data_url "data:image/jpeg;base64"
            "AAAA" _ _); unfold free_of; cbn; intuition discriminate.
Defined.

(** Once the file is read, and given that every awaited call settles (it
    resolves or rejects, as every call of [Env] does), the run ends
    normally with the upload over and the status cleared, whatever the
    stages and the store answer; the connection flag is untouched, the
    files already listed are all kept in place behind at most one new
    record, and the earlier calls are kept. *)
Theorem readable_upload_always_settles (env : Env) (file : InputFile)
    (rest : list InputFile) (url : string) (st : State) :
  readAsDataURL env file = Some url ->
  exists st',
    handleFileUpload env (Some (file :: rest)) st = (Normal tt, st')
    /\ isUploading st' = false
    /\ processingStatus st' = EmptyString
    /\ isFirebaseConnected st' = isFirebaseConnected st
    /\ (exists new, files st' = new ++ files st /\ List.length new <= 1)
    /\ (exists made, calls st' = calls st ++ made).
Proof.
  intros Hread. exists (settled env file url st).
  split; [now apply handleFileUpload_run|].
  unfold settled. cbn [isUploading processingStatus isFirebaseConnected files calls].
  repeat split.
  - destruct (isFirebaseConnected st).
    + exists []. split; [reflexivity | cbn; lia].
    + exists [record env file url]. split; [reflexivity | cbn; lia].
  - eexists. reflexivity.
Qed.

Lemma readable_upload_always_settles_witness :
  exists st',
    handleFileUpload (example_env (answering "null")) (Some [scan_jpg]) idle
    = (Normal tt, st')
    /\ isUploading st' = false
    /\ processingStatus st' = EmptyString
    /\ isFirebaseConnected st' = false
    /\ (exists new, files st' = new ++ [] /\ List.length new <= 1)
    /\ (exists made, calls st' = [] ++ made).
Proof.
  exact (readable_upload_always_settles (example_env (answering "null"))
           scan_jpg [] "data:image/jpeg;base64,AAAA" idle eq_refl).
Defined.

(** With no API key configured, an upload that is read still completes:
    the record has no processed URL and carries the report "Analysis
    failed." / "System Error.", with no findings. *)
Theorem upload_without_api_key (env : Env) (file : InputFile)
    (rest : list InputFile) (url : string) (st : State) :
  Gemini.getGenAIClient (gemini env) = None ->
  readAsDataURL env file = Some url ->
  handleFileUpload env (Some (file :: rest)) st
  = (Normal tt, settled env file url st)
  /\ record env file url = newFile env file url None Gemini.defaultError.
Proof.
  intros Hkey Hread. split; [now apply handleFileUpload_run|].
  assert (He : enhanced env file url = None).
  { apply enhanced_none_of_failure. now left. }
  unfold record, report, final. rewrite He.
  unfold Gemini.analyzeMedicalDocument. now rewrite Hkey.
Qed.

Lemma upload_without_api_key_witness :
  handleFileUpload (example_env no_key) (Some [scan_jpg]) idle
  = (Normal tt,
     mkState false ""
       [mkFile "1700000000000" "scan.jpg" "image/jpeg"
          "2023-11-14T22:13:20.000Z" (Some "data:image/jpeg;base64,AAAA")
          None (Some Gemini.defaultError)]
       false
       [processMedicalImage_call (Some "AAAA") "image/jpeg";
        analyzeMedicalDocument_call (Some "AAAA") "image/jpeg"]).
Proof.
  exact (proj1 (upload_without_api_key (example_env no_key) scan_jpg []
                  "data:image/jpeg;base64,AAAA" idle eq_refl eq_refl)).
Defined.

(** When the enhancement of an image gives a non-empty result, the
    analysis call is made with the enhanced bytes, and the record keeps the
    original as its preview and carries the enhanced bytes as a PNG data
    URL. *)
Theorem enhanced_bytes_feed_the_analysis (env : Env) (file : InputFile)
    (rest : list InputFile) (url p : string) (st : State) :
  startsWith (input_type file) "image/" = true ->
  readAsDataURL env file = Some url ->
  Gemini.processMedicalImage (gemini env) (original url) (input_type file)
  = Normal (Some p) ->
  p <> EmptyString ->
  handleFileUpload env (Some (file :: rest)) st
  = (Normal tt, settled env file url st)
  /\ calls (settled env file url st)
     = calls st
       ++ [processMedicalImage_call (original url) (input_type file);
           analyzeMedicalDocument_call (Some p) (input_type file)]
       ++ store_calls env file url (isFirebaseConnected st)
  /\ previewUrl (record env file url) = Some url
  /\ processedUrl (record env file url)
     = Some ("data:image/png;base64," ++ p)%string.
Proof.
  intros Himg Hread Hp Hne.
  assert (He : enhanced env file url = Some p).
  { unfold enhanced. rewrite Himg, Hp. cbn.
    destruct (String.eqb_spec p ""); [contradiction | reflexivity]. }
  split; [now apply handleFileUpload_run|].
  split; [|split].
  - unfold settled, stage_calls, final. cbn [calls]. now rewrite Himg, He.
  - reflexivity.
  - unfold record, newFile. cbn [processedUrl]. rewrite He.
    destruct (String.eqb_spec p ""); [contradiction | reflexivity].
Qed.

Lemma enhanced_bytes_feed_the_analysis_witness :
  handleFileUpload (example_env (analysis_down (Some "BBBB")))
    (Some [scan_jpg]) connected
  = (Normal tt,
     mkState false "" [] true
       [processMedicalImage_call (Some "AAAA") "image/jpeg";
        analyzeMedicalDocument_call (Some "BBBB") "image/jpeg";
        addPatientReport_call "demo_patient_001"
          (mkFile "1700000000000" "scan.jpg" "image/jpeg"
             "2023-11-14T22:13:20.000Z" (Some "data:image/jpeg;base64,AAAA")
             (Some "data:image/png;base64,BBBB") (Some Gemini.catchError));
        updateDoc_call "demo_patient_001"
          (mkFile "1700000000000" "scan.jpg" "image/jpeg"
             "2023-11-14T22:13:20.000Z" (Some "data:image/jpeg;base64,AAAA")
             (Some "data:image/png;base64,BBBB") (Some Gemini.catchError))]).
Proof.
  refine (proj1 (enhanced_bytes_feed_the_analysis
                   (example_env (analysis_down (Some "BBBB"))) scan_jpg []
                   "data:image/jpeg;base64,AAAA" "BBBB" connected
                   eq_refl eq_refl eq_refl _)).
  discriminate.
Defined.

End PipelineMore.

(** ** Where the record goes *)

Module PipelineStore.
Import App GeminiProps AppProps PipelineMore.

(** The records handed to [addPatientReport] by a sequence of calls. *)
Fixpoint handed_to_store (cs : list Call) : list (UploadedFile Report) :=
  match cs with
  | [] => []
  | addPatientReport_call _ f :: cs' => f :: handed_to_store cs'
  | _ :: cs' => handed_to_store cs'
  end.

(** The records written by [updateDoc] in a sequence of calls. *)
Fixpoint written (cs : list Call) : list (UploadedFile Report) :=
  match cs with
  | [] => []
  | updateDoc_call _ f :: cs' => f :: written cs'
  | _ :: cs' => written cs'
  end.

(** The calls of [st'] that were made after those of [st]. *)
Definition made_since (st st' : State) : list Call :=
  skipn (List.length (calls st)) (calls st').

Lemma skipn_length_app {A} (l m : list A) : skipn (List.length l) (l ++ m) = m.
Proof. induction l as [|x l IH]; [reflexivity | exact IH]. Qed.

Lemma handed_to_store_app (a b : list Call) :
  handed_to_store (a ++ b) = handed_to_store a ++ handed_to_store b.
Proof.
  induction a as [|c a IH]; [reflexivity|]. destruct c; cbn; now rewrite IH.
Qed.

Lemma written_app (a b : list Call) : written (a ++ b) = written a ++ written b.
Proof.
  induction a as [|c a IH]; [reflexivity|]. destruct c; cbn; now rewrite IH.
Qed.

Lemma stage_calls_store_nothing (env : Env) (file : InputFile) (url : string) :
  handed_to_store (stage_calls env file url) = []
  /\ written (stage_calls env file url) = [].
Proof.
  unfold stage_calls.
  destruct (startsWith (input_type file) "image/"); split; reflexivity.
Qed.

(** A record that was read and analysed goes to exactly one place: when
    the component is connected it is handed to the store once and the
    local list is left as it was; otherwise it is put first in the local
    list and the store is neither called nor written. *)
Theorem record_goes_to_one_place (env : Env) (file : InputFile)
    (rest : list InputFile) (url : string) (st : State) :
  readAsDataURL env file = Some url ->
  let st' := snd (handleFileUpload env (Some (file :: rest)) st) in
  if isFirebaseConnected st then
    files st' = files st
    /\ handed_to_store (made_since st st') = [record env file url]
  else
    files st' = record env file url :: files st
    /\ handed_to_store (made_since st st') = []
    /\ written (made_since st st') = [].
Proof.
  intros Hread. cbn zeta. rewrite (handleFileUpload_run _ _ _ _ _ Hread).
  cbn [snd]. unfold made_since, settled. cbn [files calls].
  rewrite skipn_length_app, handed_to_store_app, written_app.
  destruct (stage_calls_store_nothing env file url) as [-> ->].
  unfold store_calls. destruct (isFirebaseConnected st).
  - split; [reflexivity|]. destruct (Firebase.db (firebase env)); reflexivity.
  - repeat split.
Qed.

Lemma record_goes_to_one_place_witness :
  files (snd (handleFileUpload (example_env (answering "{}"))
                (Some [report_pdf]) connected)) = []
  /\ handed_to_store
       (made_since connected
          (snd (handleFileUpload (example_env (answering "{}"))
                  (Some [report_pdf]) connected)))
     = [mkFile "1700000000000" "report.pdf" "application/pdf"
          "2023-11-14T22:13:20.000Z"
          (Some "data:application/pdf;base64,AAAA") None
          (Some [("findings", JArr [])])].
Proof.
  exact (record_goes_to_one_place (example_env (answering "{}")) report_pdf []
           "data:application/pdf;base64,AAAA" connected eq_refl).
Defined.

(** The handler does not tell a failed save from a successful one: its
    completion and the state it leaves are the same whatever [updateDoc]
    answers, so a rejected write ends the upload normally and leaves no
    trace of the record in the component. *)
Theorem save_outcome_is_not_observed (g : Gemini.Env) (d : bool)
    (u u' : string -> UploadedFile Report -> completion unit)
    (reader : InputFile -> option string) (now iso : string)
    (chosen : option (list InputFile)) (st : State) :
  handleFileUpload (mkEnv g (Firebase.mkEnv d u) reader now iso) chosen st
  = handleFileUpload (mkEnv g (Firebase.mkEnv d u') reader now iso) chosen st.
Proof.
  destruct chosen as [[|file rest]|]; try reflexivity.
  destruct (reader file) as [url|] eqn:Hread.
  - rewrite (handleFileUpload_run
               (mkEnv g (Firebase.mkEnv d u) reader now iso) file rest url st Hread).
    rewrite (handleFileUpload_run
               (mkEnv g (Firebase.mkEnv d u') reader now iso) file rest url st Hread).
    reflexivity.
  - unfold handleFileUpload, onloadend, bind, setIsUploading,
      setProcessingStatus, throw.
    cbn [readAsDataURL]. now rewrite Hread.
Qed.

Example rejected_save_ends_like_a_saved_one :
  handleFileUpload
    (mkEnv (answering "{}") rejecting
       (fun f => Some ("data:" ++ input_type f ++ ";base64,AAAA")%string)
       "1700000000000" "2023-11-14T22:13:20.000Z")
    (Some [report_pdf]) connected
  = handleFileUpload (example_env (answering "{}")) (Some [report_pdf]) connected.
Proof. reflexivity. Qed.

End PipelineStore.

(** ** What the store is given *)

Module FirebaseMore.
Import Firebase FirebaseProps.

(** Every report that [addPatientReport] writes has a preview of at most
    800000 characters and the identity, name, type, date and analysis of
    the record it was given; stripping a stripped record changes nothing;
    and offline nothing is written and the call ends normally. *)
Theorem written_reports_are_within_the_limit {R} (env : Env R)
    (userId : string) (file : UploadedFile R) :
  (forall w, In w (fst (addPatientReport env userId file)) ->
     fst w = userId
     /\ (length_or_0 (previewUrl (snd w)) <= 800000)%N
     /\ id (snd w) = id file /\ name (snd w) = name file
     /\ type (snd w) = type file /\ date (snd w) = date file
     /\ analysisResult (snd w) = analysisResult file)
  /\ safeFile (safeFile file) = safeFile file
  /\ (db env = false -> addPatientReport env userId file = ([], Normal tt)).
Proof.
  assert (Hsafe : (length_or_0 (previewUrl (safeFile file)) <= 800000)%N
                  /\ id (safeFile file) = id file
                  /\ name (safeFile file) = name file
                  /\ type (safeFile file) = type file
                  /\ date (safeFile file) = date file
                  /\ analysisResult (safeFile file) = analysisResult file).
  { unfold safeFile.
    destruct (N.ltb_spec 800000 (length_or_0 (previewUrl file)));
      cbn; repeat split; try reflexivity; lia. }
  split; [|split].
  - intros w Hin. unfold addPatientReport in Hin.
    destruct (db env); cbn in Hin; [|contradiction].
    destruct Hin as [<-|[]]. cbn [fst snd]. now split.
  - destruct Hsafe as [Hlen _]. now apply safeFile_small_preview.
  - intros Hdb. unfold addPatientReport. now rewrite Hdb.
Qed.

Example large_preview_is_blanked_once :
  safeFile large_preview
  = mkFile "1700000000000" "scan.jpg" "image/jpeg" "2023-11-14T22:13:20.000Z"
      (Some EmptyString) (Some EmptyString) (Some Gemini.defaultError).
Proof.
  unfold safeFile. cbn [previewUrl large_preview].
  rewrite large_url_length. reflexivity.
Qed.

End FirebaseMore.

(** ** The overlays: numbering, hovering, empty state, geometry *)

Module AnnotatorMore.
Import Annotator AnnotatorProps OverlayProps.

(** The findings the component is given, [undefined] read as none. *)
Definition given (findings : option (list MedicalFinding)) : list MedicalFinding :=
  match findings with
  | Some fs => fs
  | None => []
  end.

Definition heat_geometry (h : HeatDiv) : float * float * float * float :=
  (heat_top h, heat_left h, heat_height h, heat_width h).

Definition box_geometry (b : BoxDiv) : float * float * float * float :=
  (box_top b, box_left b, box_height b, box_width b).

(** A normalized box in per cent of the displayed image: top, left,
    height, width. *)
Definition percent (b : BoundingBox) : float * float * float * float :=
  (ymin b * 100, xmin b * 100, (ymax b - ymin b) * 100, (xmax b - xmin b) * 100)%float.

(** What the tooltip of the overlay at [idx] shows for its finding. *)
Definition tooltip_of (hoveredIndex : option nat) (f : MedicalFinding)
    (idx : nat) : option (nat * string * option string) :=
  if hovered hoveredIndex idx then Some (idx + 1, label f, confidence f)
  else None.

(** A report with an unboxed finding before a boxed one. *)
Definition glucose_then_nodule : list MedicalFinding :=
  [ mkFinding "High Glucose Value" (Some "Medium") None "Above range.";
    mkFinding "Possible Nodule" (Some "High")
      (Some (mkBox 0.1 0.1 0.3 0.4)) "Rounded opacity." ].

Lemma badges_from (hoveredIndex : option nat) (fs : list MedicalFinding) :
  Forall (fun f => has_box f = true) fs ->
  forall i, map badge (children (mapi_from i (boxDiv hoveredIndex) fs))
            = seq (i + 1) (List.length fs).
Proof.
  induction 1 as [|f fs Hf _ IH]; intros i; [reflexivity|].
  cbn [mapi_from]. unfold boxDiv at 1. unfold has_box in Hf.
  destruct (box_2d f); [|discriminate].
  cbn [children map badge List.length seq]. rewrite IH.
  now replace (S i + 1) with (S (i + 1)) by lia.
Qed.

Lemma legend_from (fs : list MedicalFinding) (i : nat) :
  mapi_from i (fun (f : MedicalFinding) i => (i + 1, label f)) fs
  = combine (seq (i + 1) (List.length fs)) (map label fs).
Proof.
  revert i. induction fs as [|f fs IH]; intros i; [reflexivity|].
  cbn [mapi_from map List.length seq combine]. rewrite IH.
  now replace (S i + 1) with (S (i + 1)) by lia.
Qed.

(** The badges of the outlines and the entries of the legend carry the
    same numbers, 1, 2, ... in the order of the findings that have a box
    (a finding's number is its rank among those, not its place in the
    report), and the legend pairs each number with that finding's label. *)
Theorem badges_and_legend_number_the_boxed_findings
    (viewMode : ViewMode) (hoveredIndex : option nat)
    (findings : option (list MedicalFinding)) :
  let r := ImageAnnotator viewMode hoveredIndex findings in
  let visual := visualFindings findings in
  legend r = combine (seq 1 (List.length visual)) (map label visual)
  /\ match viewMode with
     | heatmap => boxLayer r = []
     | _ => map badge (boxLayer r) = seq 1 (List.length visual)
     end.
Proof.
  cbn zeta. unfold ImageAnnotator. cbn [legend boxLayer]. split.
  - destruct (visualFindings findings) as [|f fs] eqn:E; [reflexivity|].
    cbn [List.length Nat.ltb Nat.leb]. unfold mapi. apply legend_from.
  - unfold mapi, visualFindings.
    destruct viewMode; cbn [ViewMode_eqb orb]; try reflexivity;
      apply (badges_from hoveredIndex _ (visual_all_boxed _) 0).
Qed.

Lemma hover_state_from (hoveredIndex : option nat) (fs : list MedicalFinding) :
  Forall (fun f => has_box f = true) fs ->
  forall i,
    map (fun b => (box_idx b, isHovered b, tooltip b))
      (children (mapi_from i (boxDiv hoveredIndex) fs))
    = mapi_from i (fun f idx => (idx, hovered hoveredIndex idx,
                                 tooltip_of hoveredIndex f idx)) fs.
Proof.
  induction 1 as [|f fs Hf _ IH]; intros i; [reflexivity|].
  cbn [mapi_from]. unfold boxDiv at 1. unfold has_box in Hf.
  destruct (box_2d f); [|discriminate].
  cbn. now rewrite IH.
Qed.

Lemma hovered_above (h a n : nat) :
  h < a -> filter (fun i => Nat.eqb h i) (seq a n) = [].
Proof.
  revert a. induction n as [|n IH]; intros a Hlt; [reflexivity|].
  cbn. destruct (Nat.eqb_spec h a); [lia|]. apply IH. lia.
Qed.

Lemma hovered_at_most_once (hoveredIndex : option nat) (a n : nat) :
  List.length (filter (hovered hoveredIndex) (seq a n)) <= 1.
Proof.
  destruct hoveredIndex as [h|].
  - rewrite (filter_ext (hovered (Some h)) (fun i => Nat.eqb h i))
      by reflexivity.
    revert a. induction n as [|n IH]; intros a; [cbn; lia|].
    cbn [seq filter]. destruct (Nat.eqb_spec h a) as [->|Hne]; [|apply IH].
    rewrite hovered_above by lia. cbn. lia.
  - rewrite (filter_ext (hovered None) (fun _ => false)) by reflexivity.
    induction (seq a n); cbn; lia.
Qed.

Lemma hovered_count_from (hoveredIndex : option nat) (fs : list MedicalFinding)
    (i : nat) :
  List.length
    (filter (fun t : nat * bool * option (nat * string * option string) =>
               snd (fst t))
       (mapi_from i (fun f idx => (idx, hovered hoveredIndex idx,
                                   tooltip_of hoveredIndex f idx)) fs))
  = List.length (filter (hovered hoveredIndex) (seq i (List.length fs))).
Proof.
  revert i. induction fs as [|f fs IH]; intros i; [reflexivity|].
  cbn. destruct (hovered hoveredIndex i); cbn; now rewrite IH.
Qed.

Lemma filter_map_length {A B} (f : A -> B) (p : B -> bool) (l : list A) :
  List.length (filter p (map f l)) = List.length (filter (fun x => p (f x)) l).
Proof.
  induction l as [|x l IH]; [reflexivity|].
  cbn. destruct (p (f x)); cbn; now rewrite IH.
Qed.

Lemma nothing_hovered_from (fs : list MedicalFinding) (i : nat) :
  Forall (fun b => isHovered b = false /\ tooltip b = None)
    (children (mapi_from i (boxDiv None) fs)).
Proof.
  revert i. induction fs as [|f fs IH]; intros i; [constructor|].
  cbn [mapi_from]. unfold boxDiv at 1.
  destruct (box_2d f); cbn [children]; [constructor|]; auto.
Qed.

(** At most one outline is hovered at a time: an outline is hovered
    exactly when its index is the hovered index, only a hovered outline has
    a tooltip, and the tooltip shows the badge number, the label and the
    confidence of its finding; with no hovered index no outline is hovered
    and no tooltip is shown. *)
Theorem one_outline_is_hovered_at_most
    (viewMode : ViewMode) (hoveredIndex : option nat)
    (findings : option (list MedicalFinding)) :
  let r := ImageAnnotator viewMode hoveredIndex findings in
  List.length (filter isHovered (boxLayer r)) <= 1
  /\ match viewMode with
     | heatmap => boxLayer r = []
     | _ =>
         map (fun b => (box_idx b, isHovered b, tooltip b)) (boxLayer r)
         = mapi (fun f idx => (idx, hovered hoveredIndex idx,
                               tooltip_of hoveredIndex f idx))
             (visualFindings findings)
     end
  /\ (hoveredIndex = None ->
      Forall (fun b => isHovered b = false /\ tooltip b = None) (boxLayer r)).
Proof.
  cbn zeta.
  pose proof (hover_state_from hoveredIndex _
                (visual_all_boxed (given findings)) 0) as Hst.
  change (filter has_box (given findings)) with (visualFindings findings)
    in Hst.
  split; [|split].
  3: { intros ->. unfold ImageAnnotator. cbn [boxLayer].
       destruct (ViewMode_eqb viewMode box || ViewMode_eqb viewMode combined);
         [|constructor].
       apply nothing_hovered_from. }
  - unfold ImageAnnotator. cbn [boxLayer].
    destruct (ViewMode_eqb viewMode box || ViewMode_eqb viewMode combined);
      [|cbn; lia].
    unfold mapi.
    rewrite <- (filter_map_length
                  (fun b => (box_idx b, isHovered b, tooltip b))
                  (fun t => snd (fst t))).
    rewrite Hst, hovered_count_from. apply hovered_at_most_once.
  - unfold ImageAnnotator. cbn [boxLayer].
    destruct viewMode; cbn [ViewMode_eqb orb]; try reflexivity; exact Hst.
Qed.

End AnnotatorMore.

Module AnnotatorGeometry.
Import Annotator AnnotatorProps OverlayProps AnnotatorMore.

Lemma heat_geometry_from (fs : list MedicalFinding) (i : nat) :
  map heat_geometry (children (mapi_from i heatDiv (filter has_box fs)))
  = map percent (ExportProps.boxes fs).
Proof.
  revert i. induction fs as [|f fs IH]; intros i; [reflexivity|].
  cbn [filter ExportProps.boxes]. unfold has_box at 1.
  destruct (box_2d f) as [b|] eqn:E; [|apply IH].
  cbn [mapi_from]. unfold heatDiv at 1. rewrite E.
  cbn [children map]. now rewrite IH.
Qed.

Lemma box_geometry_from (hoveredIndex : option nat)
    (fs : list MedicalFinding) (i : nat) :
  map box_geometry
    (children (mapi_from i (boxDiv hoveredIndex) (filter has_box fs)))
  = map percent (ExportProps.boxes fs).
Proof.
  revert i. induction fs as [|f fs IH]; intros i; [reflexivity|].
  cbn [filter ExportProps.boxes]. unfold has_box at 1.
  destruct (box_2d f) as [b|] eqn:E; [|apply IH].
  cbn [mapi_from]. unfold boxDiv at 1. rewrite E.
  cbn [children map]. now rewrite IH.
Qed.

(** Every layer that is shown places its overlays from the boxes of the
    findings, in report order, as percentages of the displayed image:
    top = ymin * 100, left = xmin * 100, height = (ymax - ymin) * 100,
    width = (xmax - xmin) * 100.  The heat overlay and the outline of a
    finding therefore coincide, and hovering moves nothing. *)
Theorem overlays_sit_on_the_boxes_in_percent
    (viewMode : ViewMode) (hoveredIndex : option nat)
    (findings : option (list MedicalFinding)) :
  let r := ImageAnnotator viewMode hoveredIndex findings in
  let places := map percent (ExportProps.boxes (given findings)) in
  match viewMode with
  | box => heatLayer r = [] /\ map box_geometry (boxLayer r) = places
  | heatmap => map heat_geometry (heatLayer r) = places /\ boxLayer r = []
  | combined =>
      map heat_geometry (heatLayer r) = places
      /\ map box_geometry (boxLayer r) = places
  end.
Proof.
  cbn zeta. unfold ImageAnnotator, visualFindings, mapi.
  change (match findings with Some fs => fs | None => [] end)
    with (given findings).
  destruct viewMode; cbn [ViewMode_eqb orb heatLayer boxLayer]; split;
    try reflexivity;
    first [apply heat_geometry_from | apply box_geometry_from].
Qed.

Lemma filter_nil_iff {A} (p : A -> bool) (l : list A) :
  filter p l = [] <-> Forall (fun x => p x = false) l.
Proof.
  induction l as [|x l IH]; cbn.
  - split; constructor.
  - destruct (p x) eqn:E; split.
    + discriminate.
    + intros H. inversion H; subst. congruence.
    + intros H. constructor; [assumption | now apply IH].
    + intros H. inversion H; subst. now apply IH.
Qed.

(** The notice "No specific regions detected" is shown exactly when no
    finding has a box (no findings at all, or [undefined], included);
    then no layer has an overlay and there is no legend, and otherwise the
    legend is there. *)
Theorem empty_notice_iff_no_finding_has_a_box
    (viewMode : ViewMode) (hoveredIndex : option nat)
    (findings : option (list MedicalFinding)) :
  let r := ImageAnnotator viewMode hoveredIndex findings in
  (emptyState r = true
   <-> Forall (fun f => has_box f = false) (given findings))
  /\ (emptyState r = true ->
      heatLayer r = [] /\ boxLayer r = [] /\ legend r = [])
  /\ (emptyState r = false -> legend r <> []).
Proof.
  cbn zeta. unfold ImageAnnotator. cbn [emptyState heatLayer boxLayer legend].
  unfold visualFindings.
  change (match findings with Some fs => fs | None => [] end)
    with (given findings).
  rewrite <- filter_nil_iff.
  destruct (filter has_box (given findings)) as [|f fs] eqn:E.
  - cbn. repeat split; try discriminate;
      destruct (ViewMode_eqb viewMode heatmap || ViewMode_eqb viewMode combined),
               (ViewMode_eqb viewMode box || ViewMode_eqb viewMode combined);
      reflexivity.
  - cbn [List.length Nat.ltb Nat.leb negb]. repeat split; try discriminate.
Qed.

End AnnotatorGeometry.

(** ** The export, drawing call by drawing call *)

Module ExportMore.
Import UploadReport ExportProps.

Definition export_font : string := "bold 24px Inter, sans-serif".

(** The text of the label of the finding at place [idx] of the report. *)
Definition label_text (idx : nat) (f : MedicalFinding) : string :=
  (string_of_index (idx + 1) ++ ": " ++ label f)%string.

(** What the export draws for one finding: nothing without a box, else the
    outline, the background of the label right above its corner, and the
    label. *)
Definition annotation (env : Env) (width height : float)
    (f : MedicalFinding) (idx : nat) : list Draw :=
  match box_2d f with
  | None => []
  | Some b =>
      [ strokeRect (xmin b * width) (ymin b * height)
          ((xmax b - xmin b) * width) ((ymax b - ymin b) * height)
          5 "#ef4444";
        fillRect (xmin b * width) (ymin b * height - 30)
          (measureText env export_font (label_text idx f) + 10) 30
          "rgba(0,0,0,0.7)";
        fillText (label_text idx f) (xmin b * width + 5)
          (ymin b * height - 8) "#ffffff" export_font ]
  end.

(** The texts written on the canvas, in drawing order. *)
Fixpoint texts (ds : list Draw) : list string :=
  match ds with
  | [] => []
  | fillText t _ _ _ _ :: ds' => t :: texts ds'
  | _ :: ds' => texts ds'
  end.

(** The record of the export scenario with the unboxed finding first. *)
Definition two_findings_file : UploadedFile AnalysisResult :=
  mkFile "1700000000000" "scan.jpg" "image/jpeg" "2023-11-14T22:13:20.000Z"
    (Some "data:image/jpeg;base64,AAAA") (Some "data:image/png;base64,BBBB")
    (Some (mkAnalysis AnnotatorMore.glucose_then_nodule
             "One region of interest." "Not a diagnosis.")).

Lemma forEach_annotations (env : Env) (width height : float)
    (fs : list MedicalFinding) :
  forall (i : nat) (ctx : Ctx) (out : list Draw),
    lineWidth ctx = 5%float -> strokeStyle ctx = "#ef4444" ->
    font ctx = export_font ->
    snd (forEach_from i (annotate env width height) (ctx, out) fs)
    = out ++ concat (mapi_from i (annotation env width height) fs).
Proof.
  induction fs as [|f fs IH]; intros i ctx out Hw Hs Hf.
  - cbn. now rewrite app_nil_r.
  - cbn [forEach_from mapi_from concat]. unfold annotate at 2, annotation at 1.
    destruct (box_2d f) as [b|].
    + rewrite IH by assumption. rewrite <- app_assoc.
      unfold label_text. now rewrite Hw, Hs, Hf.
    + now apply IH.
Qed.

(** The exported canvas holds the image at the origin and then, for each
    finding with a box in report order, three drawings: its outline, 5
    wide in #ef4444; a dark background 30 high right above the outline's
    corner, 10 wider than the label's text; and the label in white, which
    reads "<n>: <label>" with n the finding's place in the report counted
    from 1.  The file is named after the record. *)
Theorem export_draws_outline_background_and_label (env : Env)
    (file : UploadedFile AnalysisResult) (result : AnalysisResult)
    (imageUrl : string) (width height : float) :
  or_else (processedUrl file) (previewUrl file) = Some imageUrl ->
  imageUrl <> EmptyString ->
  analysisResult file = Some result ->
  loadImage env imageUrl = Some (width, height) ->
  getContext env = true ->
  downloadAnnotatedImage env file
  = Some (mkDownload width height
            (drawImage imageUrl 0 0
             :: concat (mapi (annotation env width height) (findings result)))
            ("processed-analysis-" ++ name file ++ ".png")%string).
Proof.
  intros Hurl Hne Hres Hload Hctx.
  unfold downloadAnnotatedImage. rewrite Hurl, Hres.
  destruct (String.eqb_spec imageUrl ""); [contradiction|].
  rewrite Hload, Hctx. unfold mapi.
  now rewrite forEach_annotations.
Qed.

Lemma export_draws_outline_background_and_label_witness :
  downloadAnnotatedImage scenario_env two_findings_file
  = Some (mkDownload 1000 800
            [ drawImage "data:image/png;base64,BBBB" 0 0;
              strokeRect 100 80 300.00000000000006 160 5 "#ef4444";
              fillRect 100 50 130 30 "rgba(0,0,0,0.7)";
              fillText "2: Possible Nodule" 105 72 "#ffffff" export_font ]
            "processed-analysis-scan.jpg.png").
Proof.
  refine (export_draws_outline_background_and_label scenario_env
            two_findings_file
            (mkAnalysis AnnotatorMore.glucose_then_nodule
               "One region of interest." "Not a diagnosis.")
            "data:image/png;base64,BBBB" 1000 800
            eq_refl _ eq_refl eq_refl eq_refl).
  discriminate.
Defined.

(** Without an image URL or without a report the export does nothing,
    whatever the browser would do; with both, the image that is loaded is
    the processed one when the record has it, the preview otherwise. *)
Theorem export_needs_an_image_and_a_report (env : Env)
    (file : UploadedFile AnalysisResult) :
  ((truthy (processedUrl file) = false /\ truthy (previewUrl file) = false)
   \/ analysisResult file = None ->
   downloadAnnotatedImage env file = None)
  /\ (forall d,
        downloadAnnotatedImage env file = Some d ->
        exists imageUrl,
          hd_error (drawn d) = Some (drawImage imageUrl 0 0)
          /\ Some imageUrl
             = (if truthy (processedUrl file) then processedUrl file
                else previewUrl file)
          /\ loadImage env imageUrl
             = Some (canvas_width d, canvas_height d)).
Proof.
  split.
  - intros [[Hp Hv] | Hr]; unfold downloadAnnotatedImage, or_else.
    + rewrite Hp. destruct (previewUrl file) as [u|]; [|reflexivity].
      cbn in Hv. destruct (analysisResult file); [|reflexivity].
      destruct (String.eqb u ""); [reflexivity | discriminate].
    + rewrite Hr. now destruct (if truthy (processedUrl file) then _ else _).
  - intros d. unfold downloadAnnotatedImage, or_else.
    destruct (if truthy (processedUrl file) then processedUrl file
              else previewUrl file) as [u|] eqn:Eu; [|discriminate].
    destruct (analysisResult file) as [result|]; [|discriminate].
    destruct (String.eqb u ""); [discriminate|].
    destruct (loadImage env u) as [[w h]|] eqn:El; [|discriminate].
    destruct (getContext env); [|discriminate].
    intros [= <-]. exists u. cbn [drawn canvas_width canvas_height].
    split; [|split; [reflexivity | exact El]].
    now rewrite forEach_annotations by reflexivity.
Qed.

End ExportMore.

(** ** The report page around the viewer (UploadReport.tsx) *)

Module ReportPage.
Import UploadReport ExportProps ExportMore Annotator.

(** [file.type.includes('image')]: whether the page shows the visual
    pipeline and the viewer for a record. *)
Definition showsVisualPipeline {R} (file : UploadedFile R) : bool :=
  includes (type file) "image".

(** [file.processedUrl && ...]: whether the page shows "AI Enhanced". *)
Definition showsEnhancedBadge {R} (file : UploadedFile R) : bool :=
  truthy (processedUrl file).

(** The text an exported label has for a finding beside its card. *)
Definition card_text (p : MedicalFinding * Card) : string :=
  (string_of_index (number (snd p)) ++ ": " ++ card_label (snd p))%string.

Lemma texts_app (a b : list Draw) : texts (a ++ b) = texts a ++ texts b.
Proof.
  induction a as [|d a IH]; [reflexivity|]. destruct d; cbn; now rewrite IH.
Qed.

Lemma card_inv (f : MedicalFinding) (i : nat) (c : Card) :
  card f i = Normal c ->
  c = mkCard (i + 1) (label f) (pill c) (confidence f) (explanation f)
  /\ confidence f <> None.
Proof.
  unfold card. destruct (confidence f) as [conf|]; cbn; [|discriminate].
  intros [= <-]. split; [reflexivity | discriminate].
Qed.

Lemma cards_from_inv (f : MedicalFinding) (fs : list MedicalFinding) (i : nat)
    (cs : list Card) :
  cards_from i (f :: fs) = Normal cs ->
  exists c cs',
    cs = c :: cs' /\ card f i = Normal c /\ cards_from (S i) fs = Normal cs'.
Proof.
  cbn [cards_from]. destruct (card f i) as [c|]; cbn; [|discriminate].
  destruct (cards_from (S i) fs) as [cs'|]; cbn; [|discriminate].
  intros [= <-]. now exists c, cs'.
Qed.

Lemma texts_of_annotations (env : Env) (width height : float)
    (fs : list MedicalFinding) :
  forall (i : nat) (cs : list Card),
    cards_from i fs = Normal cs ->
    texts (concat (mapi_from i (annotation env width height) fs))
    = map card_text (filter (fun p => has_box (fst p)) (combine fs cs)).
Proof.
  induction fs as [|f fs IH]; intros i cs Hcs.
  - injection Hcs as <-. reflexivity.
  - destruct (cards_from_inv _ _ _ _ Hcs) as (c & cs' & -> & Hc & Hcs').
    destruct (card_inv _ _ _ Hc) as [Ec _].
    cbn [mapi_from concat combine filter fst]. rewrite texts_app, (IH _ _ Hcs').
    unfold annotation at 1, has_box at 2.
    destruct (box_2d f); [|reflexivity].
    cbn [texts app map]. unfold card_text at 1. cbn [snd].
    rewrite Ec. reflexivity.
Qed.

(** The number in an exported label is the number of that finding's card
    in the textual list: when the cards render, the labels written on the
    canvas are, in order, "<n>: <label>" for the cards of the findings that
    have a box. *)
Theorem exported_labels_carry_the_card_numbers (env : Env)
    (file : UploadedFile AnalysisResult) (result : AnalysisResult)
    (imageUrl : string) (width height : float) (cards : list Card) :
  or_else (processedUrl file) (previewUrl file) = Some imageUrl ->
  imageUrl <> EmptyString ->
  analysisResult file = Some result ->
  loadImage env imageUrl = Some (width, height) ->
  getContext env = true ->
  detailedAnomalies result = Normal cards ->
  exists d,
    downloadAnnotatedImage env file = Some d
    /\ texts (drawn d)
       = map card_text
           (filter (fun p => has_box (fst p))
              (combine (findings result) cards)).
Proof.
  intros Hurl Hne Hres Hload Hctx Hcards.
  unfold downloadAnnotatedImage. rewrite Hurl, Hres.
  destruct (String.eqb_spec imageUrl ""); [contradiction|].
  rewrite Hload, Hctx. eexists. split; [reflexivity|].
  cbn [drawn]. rewrite forEach_annotations by reflexivity.
  cbn [app texts]. now apply texts_of_annotations.
Qed.

Lemma exported_labels_carry_the_card_numbers_witness :
  detailedAnomalies
    (mkAnalysis AnnotatorMore.glucose_then_nodule
       "One region of interest." "Not a diagnosis.")
  = Normal
      [ mkCard 1 "High Glucose Value"
          "bg-yellow-50 text-yellow-700 border-yellow-100" (Some "Medium")
          "Above range.";
        mkCard 2 "Possible Nodule" "bg-red-50 text-red-700 border-red-100"
          (Some "High") "Rounded opacity." ]
  /\ exists d,
       downloadAnnotatedImage scenario_env two_findings_file = Some d
       /\ texts (drawn d) = ["2: Possible Nodule"].
Proof.
  split; [reflexivity|].
  refine (exported_labels_carry_the_card_numbers scenario_env
            two_findings_file
            (mkAnalysis AnnotatorMore.glucose_then_nodule
               "One region of interest." "Not a diagnosis.")
            "data:image/png;base64,BBBB" 1000 800 _
            eq_refl _ eq_refl eq_refl eq_refl eq_refl).
  discriminate.
Defined.

(** A card's confidence pill is red exactly when the heatmap paints the
    finding in its high band, for every confidence string; a finding whose
    confidence is missing gets the low band on the image, while its card
    throws a [TypeError]. *)
Theorem red_pill_iff_high_band (c : string) :
  (confidencePill (Some c) = Normal "bg-red-50 text-red-700 border-red-100"
   <-> getHeatmapStyle (Some c) = gradient_high)
  /\ (confidencePill (Some c) = Normal "bg-red-50 text-red-700 border-red-100"
      <-> Wording.contains_ci c "high")
  /\ getHeatmapStyle None = gradient_low
  /\ confidencePill None = Throw TypeError.
Proof.
  rewrite <- AnnotatorProps.includes_high.
  rewrite AnnotatorProps.getHeatmapStyle_Some. cbn [confidencePill].
  destruct (includes (toLowerCase c) "high").
  - repeat split; reflexivity.
  - repeat split; try discriminate; try reflexivity.
    destruct (includes (toLowerCase c) "medium"); discriminate.
Qed.

End ReportPage.

(** ** The page and the pipeline agree on what an image is *)

Module PageAndPipeline.
Import App GeminiProps AppProps PipelineMore PipelineStore ReportPage.

(** A record that shows "AI Enhanced" is also shown with the visual
    pipeline. *)
Definition enhanced_is_shown {R} (f : UploadedFile R) : Prop :=
  showsEnhancedBadge f = true -> showsVisualPipeline f = true.

Lemma prefix_app_l (a b s : string) :
  String.prefix (a ++ b) s = true -> String.prefix a s = true.
Proof.
  revert s. induction a as [|c a IH]; intros s.
  - intros _. destruct s; reflexivity.
  - destruct s as [|d s]; cbn; [discriminate|].
    destruct (ascii_dec c d); [apply IH | discriminate].
Qed.

Lemma prefix_includes (p s : string) :
  String.prefix p s = true -> includes s p = true.
Proof. intros H. destruct s; cbn [includes]; now rewrite H. Qed.

Lemma startsWith_image_includes_image (t : string) :
  startsWith t "image/" = true -> includes t "image" = true.
Proof.
  intros H. apply prefix_includes. now apply (prefix_app_l "image" "/").
Qed.

Lemma record_enhanced_is_shown (env : Env) (file : InputFile) (url : string) :
  enhanced_is_shown (record env file url)
  /\ enhanced_is_shown (Firebase.safeFile (record env file url)).
Proof.
  assert (H : processedUrl (record env file url) <> None ->
              includes (input_type file) "image" = true).
  { unfold record, newFile, enhanced. cbn [processedUrl].
    destruct (startsWith (input_type file) "image/") eqn:E;
      [|intros Hn; now contradiction Hn].
    intros _. now apply startsWith_image_includes_image. }
  split.
  - intros Hb. apply H. unfold showsEnhancedBadge in Hb.
    destruct (processedUrl (record env file url)); [discriminate|discriminate Hb].
  - unfold Firebase.safeFile.
    destruct (800000 <? _)%N.
    + intros Hb. discriminate Hb.
    + intros Hb. apply H. unfold showsEnhancedBadge in Hb.
      destruct (processedUrl (record env file url));
        [discriminate | discriminate Hb].
Qed.

(** The pipeline only enhances files whose type starts with "image/" and
    the page shows the visual pipeline for types that contain "image", so
    an upload keeps this invariant: every record in the list, handed to
    the store or written to it that shows "AI Enhanced" is also shown with
    its images and the viewer. *)
Theorem upload_keeps_enhanced_records_shown (env : Env) (file : InputFile)
    (rest : list InputFile) (url : string) (st : State) :
  readAsDataURL env file = Some url ->
  Forall enhanced_is_shown (files st) ->
  let st' := snd (handleFileUpload env (Some (file :: rest)) st) in
  Forall enhanced_is_shown (files st')
  /\ Forall enhanced_is_shown (handed_to_store (made_since st st'))
  /\ Forall enhanced_is_shown (written (made_since st st')).
Proof.
  intros Hread Hinv. cbn zeta.
  rewrite (handleFileUpload_run _ _ _ _ _ Hread). cbn [snd].
  unfold made_since, settled. cbn [files calls].
  rewrite skipn_length_app, handed_to_store_app, written_app.
  destruct (stage_calls_store_nothing env file url) as [-> ->].
  destruct (record_enhanced_is_shown env file url) as [Hr Hs].
  unfold store_calls.
  destruct (isFirebaseConnected st), (Firebase.db (firebase env));
    cbn; repeat split; repeat constructor; assumption.
Qed.

Lemma upload_keeps_enhanced_records_shown_witness :
  Forall enhanced_is_shown
    (files (snd (handleFileUpload (example_env (analysis_down (Some "BBBB")))
                   (Some [scan_jpg]) idle)))
  /\ map showsEnhancedBadge
       (files (snd (handleFileUpload
                      (example_env (analysis_down (Some "BBBB")))
                      (Some [scan_jpg]) idle)))
     = [true].
Proof.
  split; [|reflexivity].
  exact (proj1 (upload_keeps_enhanced_records_shown
                  (example_env (analysis_down (Some "BBBB"))) scan_jpg []
                  "data:image/jpeg;base64,AAAA" idle eq_refl (Forall_nil _))).
Defined.

End PageAndPipeline.

(** ** The health insights (geminiService.ts, App.tsx) *)

Module Insights.
Import Gemini.

(** The argument of [generateContent] for a text-only request. *)
Record TextRequest : Type := mkTextRequest {
  text_model : string;
  contents : string;
  text_responseMimeType : string
}.

(** The service of [Gemini], the answer of the model to a text-only
    request, and the platform's [JSON.stringify]. *)
Record Env : Type := mkEnv {
  service : Gemini.Env;
  generateText : Client -> TextRequest -> completion Response;
  JSON_stringify : value -> string
}.

Definition insights_prompt (env : Env) (profile symptoms medications history : value)
  : string :=
  String.concat nl [
    "";
    "    You are MediQuest AI, an advanced medical assistant. Analyze the following patient data and provide a JSON response.";
    "    ";
    ("    Patient Profile: " ++ JSON_stringify env profile)%string;
    ("    Symptoms Logs: " ++ JSON_stringify env symptoms)%string;
    ("    Current Medications: " ++ JSON_stringify env medications)%string;
    ("    Medical History: " ++ JSON_stringify env history)%string;
    "";
    "    Task:";
    "    1. Calculate a hypothetical 'Health Risk Score' (0-100, where 100 is perfect health, 0 is critical).";
    "    2. Summarize the patient's current status.";
    "    3. Identify top 3 risk factors.";
    "    4. Provide 3 actionable health recommendations.";
    "    5. Recommend the most appropriate specialist doctor type (e.g., Cardiologist, General Physician).";
    "    6. Estimate urgency level (Low, Moderate, High, Emergency).";
    "";
    "    Return ONLY raw JSON with this schema:";
    "    {";
    String.concat q ["      "; "healthScore"; ": number,"];
    String.concat q ["      "; "summary"; ": "; "string"; ","];
    String.concat q ["      "; "riskFactors"; ": ["; "string"; ", "; "string";
                     ", "; "string"; "],"];
    String.concat q ["      "; "recommendations"; ": ["; "string"; ", ";
                     "string"; ", "; "string"; "],"];
    String.concat q ["      "; "doctorSpecialty"; ": "; "string"; ","];
    String.concat q ["      "; "urgency"; ": "; "Low"; " | "; "Moderate";
                     " | "; "High"; " | "; "Emergency"; ""];
    "    }";
    "  "
  ].

(** The object the [catch] block serializes. *)
Definition insightError : value :=
  JObj [ ("healthScore", JNum 0);
         ("summary", JStr "Error generating insights. Please try again.");
         ("riskFactors", JArr []);
         ("recommendations", JArr []);
         ("doctorSpecialty", JStr "General Physician");
         ("urgency", JStr "Low") ].

Definition missing_key_message : string :=
  "API Key missing. Cannot generate insights.".

Definition generateHealthInsights (env : Env)
    (profile symptoms medications history : value) : completion string :=
  match getGenAIClient (service env) with
  | None => Normal missing_key_message
  | Some ai =>
      try_catch
        (bindc (generateText env ai
                  (mkTextRequest "gemini-3-flash-preview"
                     (insights_prompt env profile symptoms medications history)
                     "application/json"))
           (fun response =>
              (* response.text || "{}" *)
              Normal (match text response with
                      | Some t => if String.eqb t "" then "{}" else t
                      | None => "{}"
                      end)))
        (fun _ => Normal (JSON_stringify env insightError))
  end.

(** The part of the component's state that [refreshAIInsights] writes. *)
Record State : Type := mkState {
  aiInsight : option value;
  isAnalyzing : bool
}.

(** [refreshAIInsights]: the whole body stands inside
    [try { ... } catch { ... } finally { setIsAnalyzing(false) }]. *)
Definition refreshAIInsights (env : Env)
    (profile symptoms medications history : value) (st : State)
  : completion unit * State :=
  let analyzing := mkState (aiInsight st) true in
  let tried :=
    match bindc (generateHealthInsights env profile symptoms medications history)
            (fun jsonResult => JSON_parse (service env) jsonResult) with
    | Normal parsed => (Normal tt, mkState (Some parsed) (isAnalyzing analyzing))
    | Throw _ => (Normal tt, analyzing)
    end in
  (fst tried, mkState (aiInsight (snd tried)) false).

End Insights.

Module InsightsProps.
Import Gemini Insights.

(** A platform whose [JSON.stringify] and [JSON.parse] agree on the
    fallback object and reject the missing-key message, with a model that
    fails or answers with [answer]. *)
Definition toy_env (key : option string) (answer : completion Response) : Env :=
  mkEnv
    (Gemini.mkEnv key (fun _ _ => Throw (ServiceError "unused"))
       (fun t => if String.eqb t "fallback" then Normal insightError
                 else if String.eqb t "{}" then Normal (JObj [])
                 else Throw SyntaxError))
    (fun _ _ => answer)
    (fun _ => "fallback").

Definition no_insight : State := mkState None false.

Lemma generateHealthInsights_returns (env : Env) (p s m h : value) :
  exists t, generateHealthInsights env p s m h = Normal t.
Proof.
  unfold generateHealthInsights.
  destruct (getGenAIClient (service env)) as [ai|]; [|eauto].
  destruct (generateText env ai _); cbn; eauto.
Qed.

(** Refreshing the insights always ends normally with the spinner off,
    whatever the model answers and whether or not its answer parses: the
    insight is then either the one shown before, or the value that
    [JSON.parse] gave for the text received. *)
Theorem refresh_always_stops_analyzing (env : Env) (p s m h : value)
    (st : State) :
  exists st',
    refreshAIInsights env p s m h st = (Normal tt, st')
    /\ isAnalyzing st' = false
    /\ (aiInsight st' = aiInsight st
        \/ exists t parsed,
             generateHealthInsights env p s m h = Normal t
             /\ JSON_parse (service env) t = Normal parsed
             /\ aiInsight st' = Some parsed).
Proof.
  unfold refreshAIInsights.
  destruct (generateHealthInsights_returns env p s m h) as [t Ht].
  rewrite Ht. cbn [bindc].
  destruct (JSON_parse (service env) t) as [parsed|e] eqn:Hp;
    eexists; (split; [reflexivity|]); (split; [reflexivity|]); cbn.
  - right. now exists t, parsed.
  - now left.
Qed.

(** When the insight call throws, the dashboard is given the zero-score
    fallback: on a platform where parsing the serialized fallback gives it
    back, the insight becomes health score 0, "Error generating insights.
    Please try again.", no risk factors, no recommendations, "General
    Physician", urgency "Low". *)
Theorem failed_insight_call_shows_the_fallback (env : Env) (p s m h : value)
    (st : State) (ai : Client) (e : error) :
  getGenAIClient (service env) = Some ai ->
  generateText env ai
    (mkTextRequest "gemini-3-flash-preview" (insights_prompt env p s m h)
       "application/json") = Throw e ->
  JSON_parse (service env) (JSON_stringify env insightError)
  = Normal insightError ->
  refreshAIInsights env p s m h st
  = (Normal tt, mkState (Some insightError) false).
Proof.
  intros Hai Hcall Hround.
  unfold refreshAIInsights, generateHealthInsights.
  rewrite Hai, Hcall. cbn. now rewrite Hround.
Qed.

Lemma failed_insight_call_shows_the_fallback_witness :
  refreshAIInsights (toy_env (Some "key") (Throw (ServiceError "quota")))
    JNull (JArr []) (JArr []) (JArr []) no_insight
  = (Normal tt, mkState (Some insightError) false).
Proof.
  exact (failed_insight_call_shows_the_fallback
           (toy_env (Some "key") (Throw (ServiceError "quota")))
           JNull (JArr []) (JArr []) (JArr []) no_insight
           (GoogleGenAI "key") (ServiceError "quota")
           eq_refl eq_refl eq_refl).
Defined.

(** Without an API key the insight call returns a sentence, not JSON: when
    the parser rejects it, the refresh ends normally, the model is never
    asked, and the insight shown before is kept. *)
Theorem missing_key_keeps_the_insight (env : Env) (p s m h : value)
    (st : State) (e : error) :
  getGenAIClient (service env) = None ->
  JSON_parse (service env) missing_key_message = Throw e ->
  generateHealthInsights env p s m h = Normal missing_key_message
  /\ refreshAIInsights env p s m h st
     = (Normal tt, mkState (aiInsight st) false).
Proof.
  intros Hkey Hparse.
  unfold refreshAIInsights, generateHealthInsights. rewrite Hkey.
  cbn. now rewrite Hparse.
Qed.

Lemma missing_key_keeps_the_insight_witness :
  refreshAIInsights (toy_env None (Throw (ServiceError "unused")))
    JNull (JArr []) (JArr []) (JArr []) (mkState (Some insightError) false)
  = (Normal tt, mkState (Some insightError) false).
Proof.
  exact (proj2 (missing_key_keeps_the_insight
                  (toy_env None (Throw (ServiceError "unused")))
                  JNull (JArr []) (JArr []) (JArr [])
                  (mkState (Some insightError) false) SyntaxError
                  eq_refl eq_refl)).
Defined.

End InsightsProps.

(** ** The allergies field of the profile form (App.tsx) *)

Module ProfileForm.
Import SplitFacts.

(** White space and line terminators among the code units below 256:
    tab, line feed, vertical tab, form feed, carriage return, space and
    no-break space. *)
Definition isWhiteSpace (c : ascii) : bool :=
  let n := N_of_ascii c in
  ((9 <=? n) && (n <=? 13) || (n =? 32) || (n =? 160))%N.

Fixpoint trimStart (s : string) : string :=
  match s with
  | EmptyString => EmptyString
  | String c s' => if isWhiteSpace c then trimStart s' else s
  end.

Fixpoint trimEnd (s : string) : string :=
  match s with
  | EmptyString => EmptyString
  | String c s' =>
      let t := trimEnd s' in
      if isWhiteSpace c && String.eqb t "" then EmptyString else String c t
  end.

(** [s.trim()] *)
Definition trim (s : string) : string := trimEnd (trimStart s).

(** The text the field shows: [profile.allergies.join(', ')]. *)
Definition allergies_shown (allergies : list string) : string :=
  join ", " allergies.

(** The list the field stores on a change:
    [e.target.value.split(',').map(s => s.trim())]. *)
Definition allergies_typed (value : string) : list string :=
  map trim (split "," value).

Lemma split_of_shown (x : string) (l : list string) :
  Forall (free_of ",") (x :: l) ->
  split "," (allergies_shown (x :: l)) = x :: map (String " ") l.
Proof.
  revert x. induction l as [|y l IH]; intros x Hf.
  - inversion Hf; subst. now apply split_free.
  - inversion Hf as [|? ? Hx Hl]; subst.
    change (allergies_shown (x :: y :: l))
      with (x ++ String "," (String " " (allergies_shown (y :: l))))%string.
    rewrite (split_app_sep _ _ _ Hx). cbn [split].
    change (Ascii.eqb " " ",") with false. cbn iota.
    now rewrite (IH y Hl).
Qed.

(** Showing a list of allergies and reading the text back gives the same
    list, provided it is not empty and each allergy has no comma and no
    white space at either end; the empty list comes back as one empty
    allergy. *)
Theorem allergies_survive_the_field (allergies : list string) :
  allergies <> [] ->
  Forall (fun a => free_of "," a /\ trim a = a) allergies ->
  allergies_typed (allergies_shown allergies) = allergies
  /\ allergies_typed (allergies_shown []) = [EmptyString].
Proof.
  intros Hne Hall. split; [|reflexivity].
  destruct allergies as [|x l]; [contradiction|].
  unfold allergies_typed. rewrite split_of_shown.
  - inversion Hall as [|? ? [_ Hx] Hl]; subst.
    cbn [map]. rewrite Hx. f_equal.
    clear -Hl. induction Hl as [|y l [_ Hy] _ IH]; [reflexivity|].
    cbn [map]. rewrite IH. f_equal. exact Hy.
  - eapply Forall_impl; [|exact Hall]. now intros a [Ha _].
Qed.

Lemma allergies_survive_the_field_witness :
  allergies_typed (allergies_shown ["Penicillin"; "Peanuts"])
  = ["Penicillin"; "Peanuts"].
Proof.
  refine (proj1 (allergies_survive_the_field ["Penicillin"; "Peanuts"] _ _)).
  - discriminate.
  - repeat constructor; unfold free_of; cbn; intuition discriminate.
Defined.

End ProfileForm.

(** ** Symptoms and medications on the dashboard (App.tsx) *)

Module Dashboard.

Record SymptomLog : Type := mkSymptom {
  symptom_id : string;
  symptom : option string;
  severity : float;
  symptom_date : string;
  duration : option string
}.

Record Medication : Type := mkMedication {
  medication_id : string;
  medication_name : string;
  dosage : string;
  frequency : string;
  startDate : string;
  active : bool
}.

(** The values of the symptom form, as [formData.get] returns them. *)
Record FormData : Type := mkForm {
  get_symptom : option string;
  get_severity : option string;
  get_duration : option string
}.

(** What [addSymptom] does besides setting state, in order. *)
Inductive Effect : Type :=
| preventDefault
| updateDoc_symptoms (userId : string) (log : SymptomLog)
| form_reset.

(** The platform's [Number], the clock, and the store. *)
Record Env : Type := mkEnv {
  Number : option string -> float;
  Date_now : string;
  Date_toISOString : string;
  db : bool;
  updateDoc : string -> SymptomLog -> completion unit
}.

Record State : Type := mkState {
  symptoms : list SymptomLog;
  isFirebaseConnected : bool;
  effects : list Effect
}.

(** [addPatientSymptom] of firebaseService.ts: the writes issued and how
    the call ends. *)
Definition addPatientSymptom (env : Env) (userId : string) (log : SymptomLog)
  : list Effect * completion unit :=
  if negb (db env) then ([], Normal tt)
  else ([updateDoc_symptoms userId log], updateDoc env userId log).

Definition newLog (env : Env) (formData : FormData) : SymptomLog :=
  mkSymptom (Date_now env) (get_symptom formData)
    (Number env (get_severity formData)) (Date_toISOString env)
    (get_duration formData).

(** [addSymptom]: nothing in it catches, so a rejected write ends the
    handler before the form is reset. *)
Definition addSymptom (env : Env) (formData : FormData) (st : State)
  : completion unit * State :=
  let log := newLog env formData in
  if isFirebaseConnected st then
    let (writes, c) := addPatientSymptom env App.DEMO_USER_ID log in
    match c with
    | Normal _ =>
        (Normal tt,
         mkState (symptoms st) true
           (effects st ++ [preventDefault] ++ writes ++ [form_reset]))
    | Throw e =>
        (Throw e,
         mkState (symptoms st) true (effects st ++ [preventDefault] ++ writes))
    end
  else
    (Normal tt,
     mkState (log :: symptoms st) false
       (effects st ++ [preventDefault; form_reset])).

(** The bars of the "Recent Symptoms" chart:
    [symptoms.slice(0, 5).reverse()]. *)
Definition recentSymptoms (symptoms : list SymptomLog) : list SymptomLog :=
  rev (firstn 5 symptoms).

(** The entries of "Active Medications":
    [medications.filter(m => m.active)], each with its name and
    "dosage, frequency" line. *)
Definition activeMedications (medications : list Medication)
  : list (string * string * string) :=
  map (fun m => (medication_name m, dosage m, frequency m))
    (filter active medications).

(** [medications.length === 0 && ...]: the "No active medications." line. *)
Definition noMedicationsNotice (medications : list Medication) : bool :=
  Nat.eqb (List.length medications) 0.

End Dashboard.

Module DashboardProps.
Import Dashboard.

Definition offline_env : Env :=
  mkEnv (fun _ => 4%float) "1700000000000" "2023-11-14T22:13:20.000Z" false
    (fun _ _ => Normal tt).

Definition rejecting_env : Env :=
  mkEnv (fun _ => 4%float) "1700000000000" "2023-11-14T22:13:20.000Z" true
    (fun _ _ => Throw (ServiceError "permission-denied")).

Definition migraine : FormData :=
  mkForm (Some "Migraine") (Some "4") (Some "2 hours").

Definition headache : SymptomLog :=
  mkSymptom "1" (Some "Headache") 4 "2023-11-12T22:13:20.000Z" (Some "2 hours").

(** Offline, a symptom that is logged is put first in the list, in front
    of all the symptoms that were there, nothing is written to the store
    and the form is reset; on the chart, which has at most five bars, it
    is the last bar. *)
Theorem logged_symptom_is_the_last_bar (env : Env) (formData : FormData)
    (st : State) :
  isFirebaseConnected st = false ->
  let log := newLog env formData in
  addSymptom env formData st
  = (Normal tt,
     mkState (log :: symptoms st) false
       (effects st ++ [preventDefault; form_reset]))
  /\ last (recentSymptoms (log :: symptoms st)) log = log
  /\ In log (recentSymptoms (log :: symptoms st))
  /\ List.length (recentSymptoms (log :: symptoms st)) <= 5.
Proof.
  intros Hoff. cbn zeta. unfold addSymptom. rewrite Hoff.
  split; [reflexivity|]. unfold recentSymptoms.
  change (firstn 5 (newLog env formData :: symptoms st))
    with (newLog env formData :: firstn 4 (symptoms st)).
  cbn [rev]. split; [apply last_last|]. split.
  - apply in_or_app. right. now left.
  - rewrite length_app, length_rev.
    pose proof (firstn_le_length 4 (symptoms st)) as Hle.
    change (List.length [newLog env formData]) with 1. lia.
Qed.

Lemma logged_symptom_is_the_last_bar_witness :
  addSymptom offline_env migraine (mkState [headache] false [])
  = (Normal tt,
     mkState
       [mkSymptom "1700000000000" (Some "Migraine") 4
          "2023-11-14T22:13:20.000Z" (Some "2 hours"); headache]
       false [preventDefault; form_reset]).
Proof.
  exact (proj1 (logged_symptom_is_the_last_bar offline_env migraine
                  (mkState [headache] false []) eq_refl)).
Defined.

(** When connected, a symptom that is logged is written to the store and
    the local list is left as it was; if the write is rejected the handler
    throws what the store threw and the form is not reset. *)
Theorem rejected_symptom_write_is_thrown (env : Env) (formData : FormData)
    (st : State) (e : error) :
  isFirebaseConnected st = true ->
  db env = true ->
  updateDoc env App.DEMO_USER_ID (newLog env formData) = Throw e ->
  addSymptom env formData st
  = (Throw e,
     mkState (symptoms st) true
       (effects st
        ++ [preventDefault;
            updateDoc_symptoms App.DEMO_USER_ID (newLog env formData)])).
Proof.
  intros Hon Hdb Hw. unfold addSymptom, addPatientSymptom.
  now rewrite Hon, Hdb, Hw.
Qed.

Lemma rejected_symptom_write_is_thrown_witness :
  addSymptom rejecting_env migraine (mkState [headache] true [])
  = (Throw (ServiceError "permission-denied"),
     mkState [headache] true
       [preventDefault;
        updateDoc_symptoms "demo_patient_001"
          (mkSymptom "1700000000000" (Some "Migraine") 4
             "2023-11-14T22:13:20.000Z" (Some "2 hours"))]).
Proof.
  exact (rejected_symptom_write_is_thrown rejecting_env migraine
           (mkState [headache] true []) (ServiceError "permission-denied")
           eq_refl eq_refl eq_refl).
Defined.

(** The "No active medications." line depends on the list being empty,
    not on its having no active entry: the card is blank (no entry and no
    line) exactly when there are medications and none of them is active. *)
Theorem inactive_medications_leave_the_card_blank
    (medications : list Medication) :
  (activeMedications medications = []
   /\ noMedicationsNotice medications = false)
  <-> (medications <> []
       /\ Forall (fun m => active m = false) medications).
Proof.
  unfold activeMedications, noMedicationsNotice.
  rewrite <- AnnotatorGeometry.filter_nil_iff.
  destruct medications as [|m ms]; cbn [List.length Nat.eqb].
  - split; [intros [_ H]; discriminate H | intros [H _]; now contradiction H].
  - split.
    + intros [H _]. split; [discriminate|].
      destruct (filter active (m :: ms)); [reflexivity | discriminate H].
    + intros [_ H]. now rewrite H.
Qed.

End DashboardProps.

(** ** Which findings are drawn over the image *)

Module OverlayClaim.
Import Annotator AnnotatorProps OverlayProps AnnotatorMore.

(** The findings of a report that have a box, each beside its box, in
    report order. *)
Fixpoint boxed_findings (fs : list MedicalFinding)
  : list (MedicalFinding * BoundingBox) :=
  match fs with
  | [] => []
  | f :: fs' =>
      match box_2d f with
      | Some b => (f, b) :: boxed_findings fs'
      | None => boxed_findings fs'
      end
  end.

(** The heat overlay of the boxed finding at rank [idx]. *)
Definition heat_for (p : MedicalFinding * BoundingBox) (idx : nat) : HeatDiv :=
  mkHeat idx (ymin (snd p) * 100) (xmin (snd p) * 100)
    ((ymax (snd p) - ymin (snd p)) * 100) ((xmax (snd p) - xmin (snd p)) * 100)
    (getHeatmapStyle (confidence (fst p))).

(** The outline of the boxed finding at rank [idx]. *)
Definition outline_for (hoveredIndex : option nat)
    (p : MedicalFinding * BoundingBox) (idx : nat) : BoxDiv :=
  mkBoxDiv idx (ymin (snd p) * 100) (xmin (snd p) * 100)
    ((ymax (snd p) - ymin (snd p)) * 100) ((xmax (snd p) - xmin (snd p)) * 100)
    (hovered hoveredIndex idx) (idx + 1)
    (tooltip_of hoveredIndex (fst p) idx).

Lemma boxed_findings_are_the_boxed (fs : list MedicalFinding) :
  map fst (boxed_findings fs) = filter has_box fs
  /\ Forall (fun p => box_2d (fst p) = Some (snd p)) (boxed_findings fs).
Proof.
  induction fs as [|f fs [IHm IHf]]; [split; [reflexivity | constructor]|].
  cbn [boxed_findings filter]. unfold has_box at 1.
  destruct (box_2d f) as [b|] eqn:E; [|now split].
  split; [cbn; now rewrite IHm | now constructor].
Qed.

Lemma heat_layer_from (fs : list MedicalFinding) (i : nat) :
  children (mapi_from i heatDiv (filter has_box fs))
  = mapi_from i heat_for (boxed_findings fs).
Proof.
  revert i. induction fs as [|f fs IH]; intros i; [reflexivity|].
  cbn [filter boxed_findings]. unfold has_box at 1.
  destruct (box_2d f) as [b|] eqn:E; [|apply IH].
  cbn [mapi_from]. unfold heatDiv at 1, heat_for at 1. rewrite E.
  cbn [children fst snd]. now rewrite IH.
Qed.

Lemma box_layer_from (hoveredIndex : option nat) (fs : list MedicalFinding)
    (i : nat) :
  children (mapi_from i (boxDiv hoveredIndex) (filter has_box fs))
  = mapi_from i (outline_for hoveredIndex) (boxed_findings fs).
Proof.
  revert i. induction fs as [|f fs IH]; intros i; [reflexivity|].
  cbn [filter boxed_findings]. unfold has_box at 1.
  destruct (box_2d f) as [b|] eqn:E; [|apply IH].
  cbn [mapi_from]. unfold boxDiv at 1, outline_for at 1, tooltip_of. rewrite E.
  cbn [children fst snd]. now rewrite IH.
Qed.

Lemma cards_list_every_finding (fs : list MedicalFinding) :
  forall i,
    match UploadReport.cards_from i fs with
    | Normal cards =>
        map (fun c => (UploadReport.number c, UploadReport.card_label c)) cards
        = mapi_from i (fun (f : MedicalFinding) idx => (idx + 1, label f)) fs
    | Throw _ => Exists (fun f => confidence f = None) fs
    end.
Proof.
  induction fs as [|f fs IH]; intros i; [reflexivity|].
  cbn [UploadReport.cards_from mapi_from]. unfold UploadReport.card.
  destruct (confidence f) as [c|] eqn:E; cbn; [|now left].
  specialize (IH (S i)). destruct (UploadReport.cards_from (S i) fs); cbn.
  - now rewrite IH.
  - now right.
Qed.

(** C8: in every view mode the findings drawn over the image are exactly
    the findings of the report that have a box, in report order: each
    layer that is shown holds one overlay per such finding, placed on that
    finding's box (with its confidence gradient, or its badge and
    tooltip), a layer that is not shown holds none, and so the findings
    with an overlay are as many as the findings with a box and a finding
    without a box has none.  The findings without a box stay in the report:
    the textual list, when it renders, has a card for every finding at its
    place in the report (it fails to render only when some finding has no
    confidence). *)
Theorem spatial_overlays_are_the_boxed_findings (result : AnalysisResult)
    (viewMode : ViewMode) (hoveredIndex : option nat) :
  let r := ImageAnnotator viewMode hoveredIndex (Some (findings result)) in
  let drawn := boxed_findings (findings result) in
  map fst drawn = filter has_box (findings result)
  /\ Forall (fun p => box_2d (fst p) = Some (snd p)) drawn
  /\ List.length (overlaid r) = List.length (filter has_box (findings result))
  /\ match viewMode with
     | box =>
         heatLayer r = []
         /\ boxLayer r = mapi (outline_for hoveredIndex) drawn
     | heatmap =>
         heatLayer r = mapi heat_for drawn
         /\ boxLayer r = []
     | combined =>
         heatLayer r = mapi heat_for drawn
         /\ boxLayer r = mapi (outline_for hoveredIndex) drawn
     end
  /\ match UploadReport.detailedAnomalies result with
     | Normal cards =>
         map (fun c => (UploadReport.number c, UploadReport.card_label c)) cards
         = mapi (fun (f : MedicalFinding) idx => (idx + 1, label f))
             (findings result)
     | Throw _ => Exists (fun f => confidence f = None) (findings result)
     end.
Proof.
  cbn zeta.
  destruct (boxed_findings_are_the_boxed (findings result)) as [Hm Hf].
  pose proof (heat_indices _ (visual_all_boxed (findings result)) 0) as Hh.
  pose proof (box_indices hoveredIndex _ (visual_all_boxed (findings result)) 0)
    as Hb.
  split; [exact Hm|]. split; [exact Hf|]. split; [|split].
  - unfold overlaid, ImageAnnotator, visualFindings, mapi.
    destruct viewMode; cbn [ViewMode_eqb orb heatLayer boxLayer map app].
    + rewrite Hb, nodup_fixed_point by apply seq_NoDup. apply length_seq.
    + rewrite Hh, app_nil_r, nodup_fixed_point by apply seq_NoDup.
      apply length_seq.
    + rewrite Hh, Hb, nodup_seq_twice. apply length_seq.
  - unfold ImageAnnotator, visualFindings, mapi.
    destruct viewMode; cbn [ViewMode_eqb orb heatLayer boxLayer]; split;
      try reflexivity;
      first [apply heat_layer_from | apply box_layer_from].
  - apply cards_list_every_finding.
Qed.

Example overlays_of_glucose_then_nodule :
  boxed_findings glucose_then_nodule
  = [(mkFinding "Possible Nodule" (Some "High")
        (Some (mkBox 0.1 0.1 0.3 0.4)) "Rounded opacity.",
      mkBox 0.1 0.1 0.3 0.4)]
  /\ List.length
       (heatLayer (ImageAnnotator combined None (Some glucose_then_nodule)))
     = 1
  /\ List.length
       (boxLayer (ImageAnnotator combined None (Some glucose_then_nodule)))
     = 1.
Proof. repeat split. Qed.

End OverlayClaim.

(** ** A large processed image on its way to the store *)

Module PipelineLimit.
Import App GeminiProps AppProps PipelineMore PipelineStore FirebaseProps.

(** An enhanced image of 800000 base64 characters. *)
Definition large_image : string := replicate 800000 "A".

Lemma large_image_not_empty : large_image <> EmptyString.
Proof.
  unfold large_image. intros E.
  pose proof (length_replicate 800000 "A") as H.
  rewrite E in H. discriminate H.
Qed.

(** The record the pipeline builds for a small JPEG whose enhancement is
    [large_image]. *)
Definition enhanced_large : UploadedFile Report :=
  mkFile "1700000000000" "scan.jpg" "image/jpeg" "2023-11-14T22:13:20.000Z"
    (Some "data:image/jpeg;base64,AAAA")
    (Some ("data:image/png;base64," ++ large_image)%string)
    (Some Gemini.catchError).

(** The pipeline itself hands such a record to the store: a small JPEG
    whose enhancement comes back as 800000 characters is written with its
    processed URL of 800022 characters intact. *)
Lemma upload_writes_a_large_processedUrl :
  written
    (made_since connected
       (snd (handleFileUpload (example_env (analysis_down (Some large_image)))
               (Some [scan_jpg]) connected)))
  = [enhanced_large]
  /\ Firebase.length_or_0 (processedUrl enhanced_large) = 800022%N
  /\ Firebase.length_or_0 (previewUrl enhanced_large) = 27%N.
Proof.
  split; [|split; [apply large_url_length | reflexivity]].
  rewrite (handleFileUpload_run
             (example_env (analysis_down (Some large_image))) scan_jpg []
             "data:image/jpeg;base64,AAAA" connected eq_refl).
  cbn [snd]. unfold made_since, settled. cbn [calls isFirebaseConnected connected].
  rewrite skipn_length_app, written_app.
  destruct (stage_calls_store_nothing
              (example_env (analysis_down (Some large_image))) scan_jpg
              "data:image/jpeg;base64,AAAA") as [_ ->].
  assert (He : enhanced (example_env (analysis_down (Some large_image)))
                 scan_jpg "data:image/jpeg;base64,AAAA" = Some large_image).
  { unfold enhanced.
    change (startsWith (input_type scan_jpg) "image/") with true. cbn iota.
    change (Gemini.processMedicalImage _ _ _) with (@Normal (option string) (Some large_image)).
    cbn [value_of truthy].
    destruct (String.eqb_spec large_image ""); [|reflexivity].
    now destruct large_image_not_empty. }
  assert (Hr : record (example_env (analysis_down (Some large_image)))
                 scan_jpg "data:image/jpeg;base64,AAAA" = enhanced_large).
  { unfold record, report, final, newFile. rewrite He.
    destruct (String.eqb_spec large_image "");
      [now destruct large_image_not_empty|].
    reflexivity. }
  unfold store_calls. rewrite Hr.
  change (Firebase.db (firebase (example_env (analysis_down (Some large_image)))))
    with true.
  cbn [app written].
  rewrite (safeFile_small_preview enhanced_large); [reflexivity|].
  cbn. lia.
Qed.

End PipelineLimit.
